(** * IVI_pdf_packer: the PDF folder merger (pdf_folder_merger_tk.py)

    A shallow embedding of the merge pipeline of [pdf_folder_merger_tk.py]:
    folder listing, page counting, the table-of-contents builder, the
    start-page computation with its verification pass, the header/footer
    overlay, the stamping loop and the final write.

    Modelling conventions.
    - Python [int] is [Z]; [len(...)] is [Z.of_nat (length ...)];
      [//] is [Z.div] (both floor), which raises [ZeroDivisionError] on a
      zero divisor in Python: the embedding raises it explicitly.
    - Page sizes and coordinates are Python floats in the source.  Every
      TOC call site uses the default letter page (612.0 x 792.0) and integer
      margins, so all the values involved are integers far below 2^53 and the
      float arithmetic is exact; sizes are therefore [Z] (points).
    - [str] is [string] (8-bit characters): [lower] and [strip] are the
      ASCII fragments of the Python methods.
    - reportlab's canvas is a state record that collects the strings drawn
      on each page together with the font that was current; pypdf's view of
      the saved bytes is the list of pages.  Serialisation itself (the byte
      encoding chosen by the PDF library) is outside the repository and is
      read back by [PdfReader] in the source, so a document is identified
      with its list of pages.  Where the bytes themselves matter they are
      the pages together with the stamp (creation date, document ID) that
      the library gives each saved file.
    - Exceptions are values of [exn]; the file system and the two callbacks
      are an explicit run state threaded through [merge_pdfs_with_toc]. *)

From Stdlib Require Import ZArith QArith Qround Lia.
From Stdlib Require Import Ascii String DecimalString Sorted.
From stdpp Require Import base option list gmap strings.

Local Open Scope string_scope.
Local Open Scope Z_scope.

(** ** Python string primitives *)

Module Py.

Definition is_upper (c : ascii) : bool :=
  let n := nat_of_ascii c in (Nat.leb 65 n && Nat.leb n 90)%bool.

Definition lower_char (c : ascii) : ascii :=
  if is_upper c then ascii_of_nat (nat_of_ascii c + 32) else c.

(** [s.lower()] *)
Fixpoint lower (s : string) : string :=
  match s with
  | EmptyString => EmptyString
  | String c r => String (lower_char c) (lower r)
  end.

(** [s.endswith(suffix)] *)
Definition endswith (s suffix : string) : bool :=
  let n := String.length s in
  let m := String.length suffix in
  (Nat.leb m n && String.eqb (substring (n - m) m s) suffix)%bool.

(** Python's [str.isspace] on the ASCII range. *)
Definition is_space (c : ascii) : bool :=
  let n := nat_of_ascii c in
  ((Nat.leb 9 n && Nat.leb n 13) || (Nat.leb 28 n && Nat.leb n 32))%bool.

Fixpoint lstrip (s : string) : string :=
  match s with
  | EmptyString => EmptyString
  | String c r => if is_space c then lstrip r else s
  end.

Fixpoint rstrip (s : string) : string :=
  match s with
  | EmptyString => EmptyString
  | String c r =>
      match rstrip r with
      | EmptyString => if is_space c then EmptyString else String c EmptyString
      | r' => String c r'
      end
  end.

(** [s.strip()] *)
Definition strip (s : string) : string := rstrip (lstrip s).

(** [str(n)] for an int. *)
Definition str (n : Z) : string := NilZero.string_of_int (Z.to_int n).

(** [c * n] for a one-character string. *)
Fixpoint repeat_char (c : ascii) (n : nat) : string :=
  match n with
  | O => EmptyString
  | S k => String c (repeat_char c k)
  end.

(** [s[:n]] for [0 <= n]. *)
Definition prefix_of (n : nat) (s : string) : string := substring 0 n s.

(** [len(s)] *)
Definition len (s : string) : Z := Z.of_nat (String.length s).

(** [max(a, b)], [min(a, b)] on ints. *)
Definition max (a b : Z) : Z := if a <? b then b else a.
Definition min (a b : Z) : Z := if b <? a then b else a.

(** [l[start:end]] for [0 <= start], [0 <= end]. *)
Definition slice {A} (l : list A) (start end_ : Z) : list A :=
  take (Z.to_nat (end_ - start)) (drop (Z.to_nat start) l).

End Py.

(** ** os.path (POSIX) *)

Module OsPath.

Definition sep : ascii := "/"%char.

(** [os.path.join(a, b)] *)
Definition join (a b : string) : string :=
  match b with
  | String c _ =>
      if Ascii.eqb c sep then b
      else if (String.eqb a "" || Py.endswith a "/")%bool then a +:+ b
      else a +:+ "/" +:+ b
  | EmptyString =>
      if (String.eqb a "" || Py.endswith a "/")%bool then a else a +:+ "/"
  end.

(** The part of [p] after the last separator; [tail] is the candidate
    found so far. *)
Fixpoint after_last_sep (tail p : string) : string :=
  match p with
  | EmptyString => tail
  | String c r => if Ascii.eqb c sep then after_last_sep r r else after_last_sep tail r
  end.

(** [os.path.basename(p)] *)
Definition basename (p : string) : string := after_last_sep p p.

End OsPath.

(** ** Exceptions *)

Inductive exn : Type :=
| ValueError (msg : string)
| RuntimeError (msg : string)
| ZeroDivisionError
| IndexError
| ReaderError (msg : string)   (* whatever [PdfReader] raises, with its text *)
| OSError (msg : string).

Definition result (A : Type) : Type := exn + A.

Abbreviation ok := (@inr exn _).
Abbreviation raise := (@inl exn _).

Definition rbind {A B} (r : result A) (k : A -> result B) : result B :=
  match r with
  | inl e => inl e
  | inr a => k a
  end.

Declare Scope result_scope.
Delimit Scope result_scope with result.
Notation "'let?' x ':=' r 'in' k" := (rbind r (fun x => k))
  (at level 10, x pattern, r at level 100, k at level 200) : result_scope.
Local Open Scope result_scope.

(** ** PDF object model *)

(** A text-drawing operation together with the font that was current. *)
Inductive DrawOp : Type :=
| DrawString (font : string) (size : Z) (x y : Z) (text : string)
| DrawRightString (font : string) (size : Z) (x y : Z) (text : string).

(** A page as pypdf sees it.  [merge_raises] says whether
    [page.merge_page(...)] raises on this page. *)
Record Page : Type := mkPage {
  mediabox_width : Z;
  mediabox_height : Z;
  content : list DrawOp;
  merge_raises : bool
}.

Abbreviation Document := (list Page).

(** ** reportlab canvas *)

Record CanvasState : Type := mkCanvas {
  c_pagesize : Z * Z;
  c_font : string * Z;
  c_code : list DrawOp;          (* operations of the page being drawn *)
  c_pages : list (list DrawOp)   (* pages already shown, in order *)
}.

Module canvas.

Definition initial_font : string * Z := ("Helvetica", 12).

(** [canvas.Canvas(buf, pagesize=pagesize)] *)
Definition Canvas (pagesize : Z * Z) : CanvasState :=
  mkCanvas pagesize initial_font [] [].

Definition setFont (name : string) (size : Z) (c : CanvasState) : CanvasState :=
  mkCanvas (c_pagesize c) (name, size) (c_code c) (c_pages c).

Definition drawString (x y : Z) (text : string) (c : CanvasState) : CanvasState :=
  mkCanvas (c_pagesize c) (c_font c)
    (c_code c ++ [DrawString (fst (c_font c)) (snd (c_font c)) x y text])
    (c_pages c).

Definition drawRightString (x y : Z) (text : string) (c : CanvasState) : CanvasState :=
  mkCanvas (c_pagesize c) (c_font c)
    (c_code c ++ [DrawRightString (fst (c_font c)) (snd (c_font c)) x y text])
    (c_pages c).

(** [showPage] closes the current page and resets the graphics state. *)
Definition showPage (c : CanvasState) : CanvasState :=
  mkCanvas (c_pagesize c) initial_font [] (c_pages c ++ [c_code c]).

(** [save] shows the current page first when something was drawn on it. *)
Definition save (c : CanvasState) : CanvasState :=
  match c_code c with
  | [] => c
  | _ => showPage c
  end.

(** The document read back from the buffer of a saved canvas. *)
Definition read (c : CanvasState) : Document :=
  fmap (fun ops => mkPage (fst (c_pagesize c)) (snd (c_pagesize c)) ops false)
      (c_pages c).

End canvas.

(** ** The table-of-contents builder *)

(** The keyword parameters of [_build_toc_pdf_bytes]. *)
Record TocGeometry : Type := mkGeometry {
  title : string;
  pagesize : Z * Z;
  left_margin : Z;
  top_margin : Z;
  bottom_margin : Z;
  font_name : string;
  font_size : Z;
  line_gap : Z
}.

(** Their default values: a letter page in points. *)
Definition default_geometry : TocGeometry :=
  mkGeometry "Table of Contents" (612, 792) 54 54 54 "Helvetica" 11 3.

(** A TOC entry: (display name, page number). *)
Definition TocEntry : Type := string * Z.

Section TocBuilder.

Variable g : TocGeometry.

Definition page_w : Z := fst (pagesize g).
Definition page_h : Z := snd (pagesize g).

Definition usable_h : Z := page_h - top_margin g - bottom_margin g.
Definition line_h : Z := font_size g + line_gap g.

Definition title_font : Z := 16.
Definition title_gap : Z := 18.
Definition header_space : Z := title_gap + 2 * line_h.

(** [max(1, int((usable_h - header_space) // line_h))] *)
Definition lines_per_page : result Z :=
  if line_h =? 0 then raise ZeroDivisionError
  else ok (Py.max 1 ((usable_h - header_space) / line_h)).

Section WithCapacity.

Variable lpp : Z.
Variable entries : list TocEntry.

(** [toc_pages = max(1, (len(entries) + (lines_per_page - 1)) // lines_per_page)] *)
Definition toc_page_count : Z :=
  Py.max 1 ((Z.of_nat (length entries) + (lpp - 1)) / lpp).

(** The body of the [for name, pg in entries[start:end]] loop. *)
Definition draw_entry (y : Z) (e : TocEntry) (c : CanvasState) : CanvasState :=
  let '(name, pg) := e in
  let max_chars := 95 in
  let disp :=
    if Py.len name <=? max_chars then name
    else Py.prefix_of (Z.to_nat (max_chars - 3)) name +:+ "..." in
  let c := canvas.drawString (left_margin g) y disp c in
  let dots_start_x := left_margin g + 320 in
  let dots_end_x := page_w - left_margin g - 40 in
  let c :=
    if dots_end_x >? dots_start_x
    then canvas.drawString dots_start_x y (Py.repeat_char "."%char 60) c
    else c in
  canvas.drawRightString (page_w - left_margin g) y (Py.str pg) c.

Fixpoint draw_entries (y : Z) (es : list TocEntry) (c : CanvasState) : CanvasState :=
  match es with
  | [] => c
  | e :: rest => draw_entries (y - line_h) rest (draw_entry y e c)
  end.

(** The nested function [draw_page(page_idx)]. *)
Definition draw_page (page_idx : Z) (c : CanvasState) : CanvasState :=
  let c := canvas.setFont (font_name g) title_font c in
  let c := canvas.drawString (left_margin g) (page_h - top_margin g) (title g) c in
  let y := page_h - top_margin g - title_gap in
  let c := canvas.setFont (font_name g) 9 c in
  let c := canvas.drawString (left_margin g) y
             "Merged PDF contents (file start pages):" c in
  let y := y - (line_h + 6) in
  let c := canvas.setFont (font_name g) (font_size g) c in
  let start := page_idx * lpp in
  let end_ := Py.min (Z.of_nat (length entries)) (start + lpp) in
  let c := draw_entries y (Py.slice entries start end_) c in
  canvas.showPage c.

End WithCapacity.

(** [_build_toc_pdf_bytes(entries, ...)]: the rendered TOC document and
    its page count. *)
Definition _build_toc_pdf_bytes (entries : list TocEntry) : result (Document * Z) :=
  let c := canvas.Canvas (pagesize g) in
  let? lpp := lines_per_page in
  let toc_pages := toc_page_count lpp entries in
  let c := foldl (fun c i => draw_page lpp entries i c) c (seqZ 0 toc_pages) in
  let c := canvas.save c in
  ok (canvas.read c, toc_pages).

End TocBuilder.

(** ** Header/footer overlay *)

(** [_overlay_header_footer_pdf_bytes] with its default margins and fonts. *)
Definition _overlay_header_footer_pdf_bytes
    (page_w page_h : Z) (header_text : string)
    (page_num_1based total_pages : Z) : Document :=
  let left_margin := 36 in
  let top_margin := 24 in
  let bottom_margin := 24 in
  let font_name := "Helvetica" in
  let header_font_size := 10 in
  let footer_font_size := 9 in
  let c := canvas.Canvas (page_w, page_h) in
  let c :=
    if negb (String.eqb (Py.strip header_text) "")
    then
      let c := canvas.setFont font_name header_font_size c in
      canvas.drawString left_margin (page_h - top_margin) (Py.strip header_text) c
    else c in
  let c := canvas.setFont font_name footer_font_size c in
  let c := canvas.drawRightString (page_w - left_margin) bottom_margin
             ("Page " +:+ Py.str page_num_1based +:+ " of " +:+ Py.str total_pages) c in
  let c := canvas.save c in
  canvas.read c.

(** [page.merge_page(overlay_page)]: the overlay's content is appended to
    the page's own content; the page keeps its size.  [None] when pypdf
    raises. *)
Definition merge_page (page overlay_page : Page) : option Page :=
  if merge_raises page then None
  else Some (mkPage (mediabox_width page) (mediabox_height page)
               (content page ++ content overlay_page) (merge_raises page)).

(** A [PdfWriter]: its pages and its outline (title, 0-based page index). *)
Record PdfWriter : Type := mkWriter {
  w_pages : list Page;
  w_outline : list (string * Z)
}.

(** The body of the loop of [_stamp_header_footer_on_writer] from index
    [idx] on. *)
Fixpoint stamp_pages (header_text : string) (total : Z) (idx : Z)
    (pages : list Page) : result (list Page) :=
  match pages with
  | [] => ok []
  | page :: rest =>
      let w := mediabox_width page in
      let h := mediabox_height page in
      let overlay_bytes :=
        _overlay_header_footer_pdf_bytes w h header_text (idx + 1) total in
      match overlay_bytes with
      | [] => raise IndexError
      | overlay_page :: _ =>
          let page' :=
            match merge_page page overlay_page with
            | Some p => p
            | None => page          (* except Exception: pass *)
            end in
          let? rest' := stamp_pages header_text total (idx + 1) rest in
          ok (page' :: rest')
      end
  end.

(** [_stamp_header_footer_on_writer(writer, header_text)] *)
Definition _stamp_header_footer_on_writer (writer : PdfWriter) (header_text : string)
    : result PdfWriter :=
  let total := Z.of_nat (length (w_pages writer)) in
  let? pages := stamp_pages header_text total 0 (w_pages writer) in
  ok (mkWriter pages (w_outline writer)).

(** ** The environment and the run state *)

(** What the run reads: the folder listing and the source PDFs. *)
Record Env : Type := mkEnv {
  (** [os.listdir(folder)]; [None] when it raises. *)
  os_listdir : string -> option (list string);
  (** [os.path.isfile(path)] *)
  os_isfile : string -> bool;
  (** [PdfReader(path).pages]; [inl e] when opening or parsing raises an
      exception whose text is [e]. *)
  PdfReader : string -> string + Document;
  (** whether [writer.add_outline_item(title=...)] raises *)
  outline_raises : string -> bool;
  (** [Some e] when creating the directories of a path or opening it for
      writing raises [OSError] with text [e] *)
  write_error : string -> option string
}.

(** A call of one of the two callbacks. *)
Inductive Event : Type :=
| Progress (i n : Z) (msg : string)
| Log (msg : string).

(** What the run changes: the callback calls made so far (as if both
    callbacks were supplied) and the files written. *)
Record RunState : Type := mkState {
  events : list Event;
  disk : gmap string PdfWriter
}.

(** Computations that may raise and that thread the run state. *)
Definition M (A : Type) : Type := RunState -> result A * RunState.

Definition ret {A} (a : A) : M A := fun s => (ok a, s).
Definition throw {A} (e : exn) : M A := fun s => (raise e, s).
Definition bind {A B} (m : M A) (k : A -> M B) : M B :=
  fun s => match m s with
           | (inl e, s') => (inl e, s')
           | (inr a, s') => k a s'
           end.
Definition lift {A} (r : result A) : M A := fun s => (r, s).

Declare Scope run_scope.
Delimit Scope run_scope with run.
Notation "'let!' x ':=' m 'in' k" := (bind m (fun x => k))
  (at level 10, x pattern, m at level 100, k at level 200) : run_scope.
Local Open Scope run_scope.

Definition progress_cb (i n : Z) (msg : string) : M unit :=
  fun s => (ok tt, mkState (events s ++ [Progress i n msg]) (disk s)).

Definition log_cb (msg : string) : M unit :=
  fun s => (ok tt, mkState (events s ++ [Log msg]) (disk s)).

(** ** Folder listing *)

(** [_is_pdf(path)] *)
Definition _is_pdf (path : string) : bool := Py.endswith (Py.lower path) ".pdf".

(** [_safe_basename(path)] *)
Definition _safe_basename (path : string) : string := OsPath.basename path.

(** [list.sort(key=...)] is stable: an element goes in front of the first
    element whose key is not smaller. *)
Section Sort.
Context {A : Type} (key : A -> string).

Fixpoint insert_by_key (x : A) (l : list A) : list A :=
  match l with
  | [] => [x]
  | y :: r =>
      if String.leb (key x) (key y) then x :: y :: r
      else y :: insert_by_key x r
  end.

Definition sort_by_key (l : list A) : list A := foldr insert_by_key [] l.
End Sort.

(** [_list_pdfs_in_folder(folder)] *)
Definition _list_pdfs_in_folder (env : Env) (folder : string) : list string :=
  match os_listdir env folder with
  | None => []
  | Some names =>
      let files := fmap (OsPath.join folder) (filter (fun n => Is_true (_is_pdf n)) names) in
      let files := filter (fun f => Is_true (os_isfile env f)) files in
      sort_by_key (fun p => Py.lower (OsPath.basename p)) files
  end.

(** [_count_pages(pdf_path)] *)
Definition _count_pages (env : Env) (pdf_path : string) : string + Z :=
  match PdfReader env pdf_path with
  | inl e => inl e
  | inr pages => inr (Z.of_nat (length pages))
  end.

(** ** Pagination *)

(** The loop [for n in page_counts: starts.append(current); current += n]. *)
Fixpoint start_pages (current : Z) (page_counts : list Z) : list Z :=
  match page_counts with
  | [] => []
  | n :: rest => current :: start_pages (current + n) rest
  end.

(** [[(_safe_basename(f), s) for f, s in zip(files, starts)]] *)
Definition make_toc_entries (files : list string) (starts : list Z) : list TocEntry :=
  fmap (fun fs => (_safe_basename (fst fs), snd fs)) (zip files starts).

(** The values of [toc_bytes], [toc_pages], [starts] and [toc_entries]
    after the verification pass. *)
Record Pagination : Type := mkPagination {
  toc_bytes : Document;
  toc_pages : Z;
  starts : list Z;
  toc_entries : list TocEntry
}.

(** The pagination part of [merge_pdfs_with_toc] (from
    [placeholder_entries] to the end of the [if toc_pages_check !=
    toc_pages] block), with the TOC builder it calls as [layout]. *)
Section Resolver.

Variable layout : list TocEntry -> result (Document * Z).

Definition resolve_pagination (files : list string) (page_counts : list Z)
    : result Pagination :=
  let placeholder_entries := fmap (fun f => (_safe_basename f, 1)) files in
  let? r0 := layout placeholder_entries in
  let toc_pages := snd r0 in
  let starts := start_pages (toc_pages + 1) page_counts in
  let toc_entries := make_toc_entries files starts in
  let? r1 := layout toc_entries in
  let toc_bytes := fst r1 in
  let toc_pages_check := snd r1 in
  if negb (toc_pages_check =? toc_pages) then
    let toc_pages := toc_pages_check in
    let starts := start_pages (toc_pages + 1) page_counts in
    let toc_entries := make_toc_entries files starts in
    let? r2 := layout toc_entries in
    ok (mkPagination (fst r2) (snd r2) starts toc_entries)
  else
    ok (mkPagination toc_bytes toc_pages starts toc_entries).

End Resolver.

(** ** The merge *)

(** The line break of the f-string in the error message. *)
Definition newline : string := String (ascii_of_nat 10) EmptyString.

(** The page-counting loop; [i] is the 1-based position of the head of
    the files still to count. *)
Fixpoint count_pages_loop (env : Env) (n_files i : Z) (files : list string)
    : M (list Z) :=
  match files with
  | [] => ret []
  | f :: rest =>
      let! _ := progress_cb i n_files ("Counting pages: " +:+ _safe_basename f) in
      match _count_pages env f with
      | inl e => throw (RuntimeError ("Failed to read PDF: " +:+ f +:+ newline +:+ e))
      | inr n =>
          let! ns := count_pages_loop env n_files (i + 1) rest in
          ret (n :: ns)
      end
  end.

(** [for (name, s) in toc_entries: log_cb(f"  {name} -> page {s}")] *)
Fixpoint log_entries (es : list TocEntry) : M unit :=
  match es with
  | [] => ret tt
  | (name, s) :: rest =>
      let! _ := log_cb ("  " +:+ name +:+ " -> page " +:+ Py.str s) in
      log_entries rest
  end.

(** The loop that appends the source pages and the outline items. *)
Fixpoint merge_files_loop (env : Env) (n_files i : Z) (starts : list Z)
    (files : list string) (writer : PdfWriter) : M PdfWriter :=
  match files with
  | [] => ret writer
  | f :: rest =>
      let! _ := progress_cb i n_files ("Merging: " +:+ _safe_basename f) in
      match PdfReader env f with
      | inl e => throw (ReaderError e)
      | inr r_pages =>
          match starts !! Z.to_nat (i - 1) with
          | None => throw IndexError
          | Some s =>
              let file_start_index := s - 1 in
              let writer := mkWriter (w_pages writer ++ r_pages) (w_outline writer) in
              let writer :=
                if outline_raises env (_safe_basename f) then writer   (* except: pass *)
                else mkWriter (w_pages writer)
                       (w_outline writer ++ [(_safe_basename f, file_start_index)]) in
              merge_files_loop env n_files (i + 1) starts rest writer
          end
      end
  end.

(** [os.makedirs(...)] and [with open(output_path, "wb") as out:
    writer.write(out)] *)
Definition write_output (env : Env) (output_path : string) (writer : PdfWriter) : M unit :=
  fun s =>
    match write_error env output_path with
    | Some e => (raise (OSError e), s)
    | None => (ok tt, mkState (events s) (<[output_path := writer]> (disk s)))
    end.

(** The dictionary returned by [merge_pdfs_with_toc]. *)
Record MergeResult : Type := mkResult {
  res_folder : string;
  res_output_path : string;
  res_header_text : string;
  res_files : list string;
  res_page_counts : list Z;
  res_toc_pages : Z;
  res_start_pages : list Z;
  res_total_pages : Z
}.

(** [merge_pdfs_with_toc(folder, output_path, header_text, progress_cb, log_cb)] *)
Definition merge_pdfs_with_toc (env : Env) (folder output_path header_text : string)
    : M MergeResult :=
  let files := _list_pdfs_in_folder env folder in
  match files with
  | [] => throw (ValueError "No PDF files found in the selected folder.")
  | _ :: _ =>
      let n_files := Z.of_nat (length files) in
      let! page_counts := count_pages_loop env n_files 1 files in
      let! plan := lift (resolve_pagination (_build_toc_pdf_bytes default_geometry)
                           files page_counts) in
      let! _ := log_cb ("TOC pages: " +:+ Py.str (toc_pages plan)) in
      let! _ := log_entries (toc_entries plan) in
      let writer := mkWriter [] [] in
      let writer := mkWriter (w_pages writer ++ toc_bytes plan) (w_outline writer) in
      let! writer := merge_files_loop env n_files 1 (starts plan) files writer in
      let! _ := progress_cb 1 1 "Stamping header/footer..." in
      let! writer := lift (_stamp_header_footer_on_writer writer header_text) in
      let! _ := write_output env output_path writer in
      ret (mkResult folder output_path header_text files page_counts
             (toc_pages plan) (starts plan) (Z.of_nat (length (w_pages writer))))
  end.

(** The run starts with no callback called. *)
Definition initial_state (d : gmap string PdfWriter) : RunState := mkState [] d.

(** * Specification vocabulary *)

Section TocRendering.

Variable g : TocGeometry.
Variable lpp : Z.
Variable entries : list TocEntry.

(** The operations of one entry line drawn at height [y] in font [f]. *)
Definition entry_ops (f : string * Z) (y : Z) (e : TocEntry) : list DrawOp :=
  let disp :=
    if Py.len (fst e) <=? 95 then fst e
    else Py.prefix_of (Z.to_nat (95 - 3)) (fst e) +:+ "..." in
  [DrawString (fst f) (snd f) (left_margin g) y disp]
  ++ (if page_w g - left_margin g - 40 >? left_margin g + 320
      then [DrawString (fst f) (snd f) (left_margin g + 320) y (Py.repeat_char "."%char 60)]
      else [])
  ++ [DrawRightString (fst f) (snd f) (page_w g - left_margin g) y (Py.str (snd e))].

Fixpoint entries_ops (f : string * Z) (y : Z) (es : list TocEntry) : list DrawOp :=
  match es with
  | [] => []
  | e :: rest => entry_ops f y e ++ entries_ops f (y - line_h g) rest
  end.

(** The entries shown on page [page_idx]. *)
Definition page_entries (page_idx : Z) : list TocEntry :=
  Py.slice entries (page_idx * lpp)
    (Py.min (Z.of_nat (length entries)) (page_idx * lpp + lpp)).

(** The operations of TOC page [page_idx]. *)
Definition page_ops (page_idx : Z) : list DrawOp :=
  [DrawString (font_name g) title_font (left_margin g) (page_h g - top_margin g) (title g);
   DrawString (font_name g) 9 (left_margin g) (page_h g - top_margin g - title_gap)
     "Merged PDF contents (file start pages):"]
  ++ entries_ops (font_name g, font_size g)
       (page_h g - top_margin g - title_gap - (line_h g + 6))
       (page_entries page_idx).

(** The rendered TOC: [n] pages of the builder's page size. *)
Definition toc_document (n : Z) : Document :=
  fmap (fun i => mkPage (page_w g) (page_h g) (page_ops i) false) (seqZ 0 n).

End TocRendering.

(** Entry lines are the only right-aligned strings of a TOC page. *)
Definition is_right_string (op : DrawOp) : bool :=
  match op with
  | DrawRightString _ _ _ _ _ => true
  | DrawString _ _ _ _ _ => false
  end.

Definition entry_lines (p : Page) : Z :=
  Z.of_nat (length (filter (fun op => Is_true (is_right_string op)) (content p))).

Definition sumZ (l : list Z) : Z := foldr Z.add 0 l.

Definition strictly_increasing (l : list Z) : Prop :=
  forall (i j : nat) (a b : Z),
    (i < j)%nat -> l !! i = Some a -> l !! j = Some b -> a < b.

Definition non_decreasing (l : list Z) : Prop :=
  forall (i j : nat) (a b : Z),
    (i < j)%nat -> l !! i = Some a -> l !! j = Some b -> a <= b.

(** A layout whose page count depends on the number of entries only. *)
Definition count_by_length (layout : list TocEntry -> result (Document * Z)) : Prop :=
  forall (es1 es2 : list TocEntry) (d1 d2 : Document) (n1 n2 : Z),
    length es1 = length es2 ->
    layout es1 = ok (d1, n1) -> layout es2 = ok (d2, n2) -> n1 = n2.

(** The plan is consistent when its start pages are the ones computed
    from its own TOC page count. *)
Definition consistent (plan : Pagination) (page_counts : list Z) : Prop :=
  starts plan = start_pages (toc_pages plan + 1) page_counts.

Definition placeholder_entries (files : list string) : list TocEntry :=
  fmap (fun f => (_safe_basename f, 1)) files.

(** The footer text of page [i] out of [total]. *)
Definition footer_text (i total : Z) : string :=
  "Page " +:+ Py.str i +:+ " of " +:+ Py.str total.

(** What the overlay of a [w] x [h] page draws. *)
Definition overlay_ops (w h : Z) (header_text : string) (i total : Z) : list DrawOp :=
  (if negb (String.eqb (Py.strip header_text) "")
   then [DrawString "Helvetica" 10 36 (h - 24) (Py.strip header_text)]
   else [])
  ++ [DrawRightString "Helvetica" 9 (w - 36) 24 (footer_text i total)].

(** The page at 0-based position [idx] after the stamping loop. *)
Definition stamp_page (header_text : string) (total idx : Z) (page : Page) : Page :=
  if merge_raises page then page
  else mkPage (mediabox_width page) (mediabox_height page)
         (content page
          ++ overlay_ops (mediabox_width page) (mediabox_height page)
               header_text (idx + 1) total)
         (merge_raises page).

Fixpoint stamped (header_text : string) (total idx : Z) (pages : list Page) : list Page :=
  match pages with
  | [] => []
  | page :: rest =>
      stamp_page header_text total idx page :: stamped header_text total (idx + 1) rest
  end.

Fixpoint counting_events (n_files i : Z) (files : list string) : list Event :=
  match files with
  | [] => []
  | f :: rest =>
      Progress i n_files ("Counting pages: " +:+ _safe_basename f)
      :: counting_events n_files (i + 1) rest
  end.

Fixpoint merging_events (n_files i : Z) (files : list string) : list Event :=
  match files with
  | [] => []
  | f :: rest =>
      Progress i n_files ("Merging: " +:+ _safe_basename f)
      :: merging_events n_files (i + 1) rest
  end.

(** The lines sent to [log_cb]. *)
Definition toc_log (n : Z) (es : list TocEntry) : list Event :=
  Log ("TOC pages: " +:+ Py.str n)
  :: fmap (fun e => Log ("  " +:+ fst e +:+ " -> page " +:+ Py.str (snd e))) es.

(** The outline of the merged document. *)
Fixpoint outline_items (env : Env) (i : Z) (starts : list Z) (files : list string)
    : list (string * Z) :=
  match files with
  | [] => []
  | f :: rest =>
      (if outline_raises env (_safe_basename f) then []
       else match starts !! Z.to_nat (i - 1) with
            | Some s => [(_safe_basename f, s - 1)]
            | None => []
            end)
      ++ outline_items env (i + 1) starts rest
  end.

Definition readable (env : Env) (f : string) (d : Document) : Prop :=
  PdfReader env f = inr d.

Definition unreadable (env : Env) (f : string) : Prop :=
  exists e : string, PdfReader env f = inl e.

(** The pages put into the writer before stamping: the TOC, then the
    sources in listing order. *)
Definition assembled_pages (files : list string) (docs : list Document) : list Page :=
  let page_counts := fmap (fun d : Document => Z.of_nat (length d)) docs in
  let n := toc_page_count 45 (placeholder_entries files) in
  let es := make_toc_entries files (start_pages (n + 1) page_counts) in
  toc_document default_geometry 45 es n ++ concat docs.

(** The callback calls of a successful run. *)
Definition run_events (files : list string) (docs : list Document) : list Event :=
  let n_files := Z.of_nat (length files) in
  let page_counts := fmap (fun d : Document => Z.of_nat (length d)) docs in
  let n := toc_page_count 45 (placeholder_entries files) in
  let es := make_toc_entries files (start_pages (n + 1) page_counts) in
  counting_events n_files 1 files
  ++ toc_log n es
  ++ merging_events n_files 1 files
  ++ [Progress 1 1 "Stamping header/footer..."].

Module Examples.

Definition blank_page : Page := mkPage 612 792 [] false.

(** A folder [/d] whose entries are [names]; [docs] gives the content of
    the PDFs by path, every other path being unreadable. *)
Definition folder_env (names : list string) (docs : list (string * Document)) : Env :=
  mkEnv
    (fun d => if String.eqb d "/d" then Some names else None)
    (fun _ => true)
    (fun p =>
       match list_find (fun fd => Is_true (String.eqb (fst fd) p)) docs with
       | Some (_, (_, d)) => inr d
       | None => inl "EOF marker not found"
       end)
    (fun _ => false)
    (fun _ => None).

(** [a.pdf] has no page at all, [b.pdf] has three. *)
Definition env_zero_page : Env :=
  folder_env ["a.pdf"; "b.pdf"]
    [("/d/a.pdf", []); ("/d/b.pdf", [blank_page; blank_page; blank_page])].

(** [b.pdf] cannot be parsed. *)
Definition env_corrupt : Env :=
  folder_env ["a.pdf"; "b.pdf"; "c.pdf"]
    [("/d/a.pdf", [blank_page]); ("/d/c.pdf", [blank_page])].

(** No PDF in the folder. *)
Definition env_no_pdf : Env := folder_env ["notes.txt"; "pdf"] [].

(** The only page of [a.pdf] has zero width. *)
Definition env_degenerate : Env :=
  folder_env ["a.pdf"] [("/d/a.pdf", [mkPage 0 792 [] false])].

(** Three documents of 2, 1 and 5 pages next to a text file. *)
Definition env_three : Env :=
  folder_env ["b.pdf"; "A.PDF"; "notes.txt"; "c.pdf"]
    [("/d/A.PDF", [blank_page; blank_page]);
     ("/d/b.pdf", [blank_page]);
     ("/d/c.pdf", [blank_page; blank_page; blank_page; blank_page; blank_page])].

Definition docs_three : list Document :=
  [[blank_page; blank_page]; [blank_page];
   [blank_page; blank_page; blank_page; blank_page; blank_page]].

(** A layout whose page count follows the page number of its first
    entry: its length depends on the numbers it prints. *)
Definition growing_layout (es : list TocEntry) : result (Document * Z) :=
  let n := match es with
           | (_, pg) :: _ => pg
           | [] => 1
           end in
  ok (replicate (Z.to_nat n) blank_page, n).

End Examples.

(** ** The remaining helpers of the module *)

Module PyMore.

(** [s.startswith(prefix)] *)
Definition startswith (s prefix : string) : bool :=
  String.eqb (substring 0 (String.length prefix) s) prefix.

(** [s[1:-1]] *)
Definition strip_ends (s : string) : string :=
  substring 1 (String.length s - 2) s.

(** [s.rstrip(c)] for a one-character [c]. *)
Fixpoint rstrip_char (c : ascii) (s : string) : string :=
  match s with
  | EmptyString => EmptyString
  | String a r =>
      match rstrip_char c r with
      | EmptyString => if Ascii.eqb a c then EmptyString else String a EmptyString
      | r' => String a r'
      end
  end.

(** [s.replace(c, d)] for one-character [c] and [d]. *)
Fixpoint replace_char (c d : ascii) (s : string) : string :=
  match s with
  | EmptyString => EmptyString
  | String a r => String (if Ascii.eqb a c then d else a) (replace_char c d r)
  end.

(** [x or y] on strings. *)
Definition or_else (x y : string) : string :=
  match x with
  | EmptyString => y
  | _ => x
  end.

(** Whether every character of [s] is [c] ([s == c * len(s)]). *)
Fixpoint all_char (c : ascii) (s : string) : bool :=
  match s with
  | EmptyString => true
  | String a r => (Ascii.eqb a c && all_char c r)%bool
  end.

End PyMore.

(** [os.path.dirname(p)] (POSIX): the part up to the last separator,
    without its trailing separators unless it consists of separators. *)
Definition os_path_dirname (p : string) : string :=
  let i := (String.length p - String.length (OsPath.basename p))%nat in
  let head := Py.prefix_of i p in
  if (negb (String.eqb head "") && negb (PyMore.all_char OsPath.sep head))%bool
  then PyMore.rstrip_char OsPath.sep head
  else head.

(** [_normalize_drop_path(s)] *)
Definition _normalize_drop_path (s : string) : string :=
  let s := Py.strip s in
  if String.eqb s "" then ""
  else if (PyMore.startswith s "{" && Py.endswith s "}")%bool
       then PyMore.strip_ends s
       else s.

(** [AppBase._default_output_for_folder_prefix(folder, prefix)];
    [abspath] is [os.path.abspath], which depends on the working
    directory of the process. *)
Definition _default_output_for_folder_prefix (abspath : string -> string)
    (folder prefix : string) : string :=
  let folder := abspath folder in
  let parent :=
    PyMore.or_else (os_path_dirname (PyMore.rstrip_char OsPath.sep folder)) folder in
  let safe_prefix :=
    PyMore.replace_char OsPath.sep "_"%char (PyMore.or_else (Py.strip prefix) "packed") in
  OsPath.join parent (safe_prefix +:+ ".pdf").

(** The test of [on_run] on the output path:
    [not out or not out.lower().endswith(".pdf")] rejects it. *)
Definition output_path_accepted (out : string) : bool :=
  (negb (String.eqb out "") && Py.endswith (Py.lower out) ".pdf")%bool.

(** [AppBase._progress(i, n, msg)]: the maximum and the value given to
    the progress bar. *)
Definition _progress_bar (i n : Z) : Z * Z := (Py.max 1 n, Py.min i n).

(** ** Vocabulary of the further properties *)

(** The texts of the right-aligned strings of a page, in drawing order. *)
Definition right_texts (p : Page) : list string :=
  omap (fun op => match op with
                  | DrawRightString _ _ _ _ t => Some t
                  | DrawString _ _ _ _ _ => None
                  end) (content p).

(** The texts of the strings drawn at abscissa [x], in drawing order. *)
Definition texts_at (x : Z) (p : Page) : list string :=
  omap (fun op => match op with
                  | DrawString _ _ x' _ t => if x' =? x then Some t else None
                  | DrawRightString _ _ _ _ _ => None
                  end) (content p).

(** The ordinate of a drawing operation. *)
Definition op_y (op : DrawOp) : Z :=
  match op with
  | DrawString _ _ _ y _ => y
  | DrawRightString _ _ _ y _ => y
  end.

(** The name shown for an entry: at most 95 characters. *)
Definition display_name (name : string) : string :=
  if Py.len name <=? 95 then name
  else Py.prefix_of 92 name +:+ "...".

(** Listing order: by lower-cased base name. *)
Definition listing_le (p q : string) : Prop :=
  Is_true (String.leb (Py.lower (OsPath.basename p)) (Py.lower (OsPath.basename q))).

(** A separator-free string. *)
Fixpoint no_sep (s : string) : bool :=
  match s with
  | EmptyString => true
  | String a r => (negb (Ascii.eqb a OsPath.sep) && no_sep r)%bool
  end.

(** ** The saved bytes *)

(** What reportlab writes into a saved file besides the pages: the
    creation date and the document ID, both taken from the clock when
    [c.save()] runs. *)
Record SaveStamp : Type := mkStamp {
  creation_date : string;
  document_id : string
}.

(** The content of the buffer after [c.save()]: the stamp and the pages. *)
Record PdfBytes : Type := mkBytes {
  bytes_stamp : SaveStamp;
  bytes_pages : Document
}.

(** [PdfReader(io.BytesIO(b)).pages] *)
Definition read_bytes (b : PdfBytes) : Document := bytes_pages b.

(** [_build_toc_pdf_bytes(entries)] with the bytes [buf.read()] returns,
    at a call where the library stamps the saved file with [stamp]. *)
Definition _build_toc_pdf_bytes_at (stamp : SaveStamp) (g : TocGeometry)
    (entries : list TocEntry) : result (PdfBytes * Z) :=
  let? r := _build_toc_pdf_bytes g entries in
  ok (mkBytes stamp (fst r), snd r).

(** What the TOC shows of an entry: the name as displayed and the page
    number as printed. *)
Definition shown_entry (e : TocEntry) : string * string :=
  (display_name (fst e), Py.str (snd e)).

Module StampExamples.

(** pypdf cannot merge anything into the only page of [a.pdf]. *)
Definition env_unmergeable : Env :=
  Examples.folder_env ["a.pdf"] [("/d/a.pdf", [mkPage 612 792 [] true])].

(** Two calls one second apart. *)
Definition first_call : SaveStamp := mkStamp "D:20260213101500" "5f1c0a9e".
Definition second_call : SaveStamp := mkStamp "D:20260213101501" "b27d4e13".

End StampExamples.

(** * Properties *)

(** ** Arithmetic of the page count *)

Lemma py_max_spec (a b : Z) : Py.max a b = Z.max a b.
Proof. unfold Py.max. destruct (Z.ltb_spec a b); lia. Qed.

Lemma py_min_spec (a b : Z) : Py.min a b = Z.min a b.
Proof. unfold Py.min. destruct (Z.ltb_spec b a); lia. Qed.

(** Floor division of two integers is the floor of their quotient. *)
Lemma floor_div_Q (n m : Z) : n / m = Qfloor (inject_Z n / inject_Z m).
Proof. apply Zdiv_Qdiv. Qed.

(** The rounding-up idiom [(n + (d - 1)) // d]. *)
Lemma round_up_div (n d : Z) : 0 < d -> (n + (d - 1)) / d = - ((- n) / d).
Proof.
  intros Hd.
  pose proof (Z.div_mod (n + (d - 1)) d ltac:(lia)) as E1.
  pose proof (Z.mod_pos_bound (n + (d - 1)) d Hd) as B1.
  pose proof (Z.div_mod (- n) d ltac:(lia)) as E2.
  pose proof (Z.mod_pos_bound (- n) d Hd) as B2.
  nia.
Qed.

Lemma round_up_div_ceiling (n d : Z) :
  0 < d -> (n + (d - 1)) / d = Qceiling (inject_Z n / inject_Z d).
Proof.
  intros Hd. rewrite round_up_div by assumption.
  unfold Qceiling. f_equal. rewrite floor_div_Q.
  apply Qfloor_comp. rewrite inject_Z_opp. field.
  intros H. apply (inject_Z_injective d 0) in H. lia.
Qed.

Lemma round_up_div_bounds (n d : Z) :
  0 < d -> d * ((n + (d - 1)) / d - 1) < n <= d * ((n + (d - 1)) / d).
Proof.
  intros Hd.
  pose proof (Z.div_mod (n + (d - 1)) d ltac:(lia)) as E1.
  pose proof (Z.mod_pos_bound (n + (d - 1)) d Hd) as B1.
  nia.
Qed.

(** ** The capacity of a TOC page *)

Lemma lines_per_page_value (g : TocGeometry) :
  line_h g <> 0 ->
  lines_per_page g = ok (Z.max 1 ((usable_h g - header_space g) / line_h g)).
Proof.
  intros H. unfold lines_per_page.
  destruct (Z.eqb_spec (line_h g) 0) as [E|_]; [contradiction|].
  by rewrite py_max_spec.
Qed.

Lemma lines_per_page_zero (g : TocGeometry) :
  line_h g = 0 -> lines_per_page g = raise ZeroDivisionError.
Proof. intros H. unfold lines_per_page. by rewrite H. Qed.

Lemma lines_per_page_default : lines_per_page default_geometry = ok 45.
Proof. reflexivity. Qed.

(** ** What the builder draws *)

Lemma draw_entry_spec (g : TocGeometry) (y : Z) (e : TocEntry) (c : CanvasState) :
  draw_entry g y e c =
  mkCanvas (c_pagesize c) (c_font c) (c_code c ++ entry_ops g (c_font c) y e) (c_pages c).
Proof.
  destruct e as [name pg]. unfold draw_entry, entry_ops. cbn [fst snd].
  unfold canvas.drawRightString, canvas.drawString.
  destruct (_ >? _); cbn; rewrite <- ?app_assoc; reflexivity.
Qed.

Lemma draw_entries_spec (g : TocGeometry) (es : list TocEntry) :
  forall (y : Z) (c : CanvasState),
  draw_entries g y es c =
  mkCanvas (c_pagesize c) (c_font c) (c_code c ++ entries_ops g (c_font c) y es) (c_pages c).
Proof.
  induction es as [|e rest IH]; intros y c; cbn [draw_entries entries_ops].
  - rewrite app_nil_r. by destruct c.
  - rewrite IH, draw_entry_spec. cbn. by rewrite <- app_assoc.
Qed.

Lemma draw_page_spec (g : TocGeometry) (lpp : Z) (entries : list TocEntry)
    (page_idx : Z) (c : CanvasState) :
  draw_page g lpp entries page_idx c =
  mkCanvas (c_pagesize c) canvas.initial_font []
    (c_pages c ++ [(c_code c ++ page_ops g lpp entries page_idx)%list]).
Proof.
  unfold draw_page. rewrite draw_entries_spec.
  unfold canvas.showPage, canvas.drawString, canvas.setFont, page_ops, page_entries.
  cbn. by rewrite <- !app_assoc.
Qed.

Lemma draw_pages_spec (g : TocGeometry) (lpp : Z) (entries : list TocEntry)
    (idxs : list Z) :
  forall c : CanvasState,
  c_code c = [] -> c_font c = canvas.initial_font ->
  foldl (fun c i => draw_page g lpp entries i c) c idxs =
  mkCanvas (c_pagesize c) canvas.initial_font [] (c_pages c ++ fmap (page_ops g lpp entries) idxs).
Proof.
  induction idxs as [|i rest IH]; intros c Hcode Hfont; cbn [foldl]; rewrite ?fmap_cons.
  - rewrite app_nil_r. destruct c; cbn in *; by subst.
  - rewrite IH by (by rewrite draw_page_spec).
    rewrite draw_page_spec, Hcode. cbn. by rewrite <- app_assoc.
Qed.

(** The builder returns the rendered pages and their number, computed
    with the capacity of the geometry. *)
Lemma build_toc_spec (g : TocGeometry) (entries : list TocEntry) (cap : Z) :
  lines_per_page g = ok cap ->
  _build_toc_pdf_bytes g entries =
  ok (toc_document g cap entries (toc_page_count cap entries),
      toc_page_count cap entries).
Proof.
  intros Hcap. unfold _build_toc_pdf_bytes. rewrite Hcap. cbn [rbind].
  rewrite draw_pages_spec by reflexivity.
  unfold canvas.save, canvas.read, toc_document. cbn.
  by rewrite <- list_fmap_compose.
Qed.

Lemma build_toc_raises (g : TocGeometry) (entries : list TocEntry) :
  line_h g = 0 -> _build_toc_pdf_bytes g entries = raise ZeroDivisionError.
Proof.
  intros H. unfold _build_toc_pdf_bytes. by rewrite lines_per_page_zero.
Qed.

Lemma toc_page_count_pos (cap : Z) (entries : list TocEntry) :
  1 <= toc_page_count cap entries.
Proof. unfold toc_page_count. rewrite py_max_spec. lia. Qed.

(** The page count depends on the number of entries only. *)
Lemma toc_page_count_length (cap : Z) (es1 es2 : list TocEntry) :
  length es1 = length es2 -> toc_page_count cap es1 = toc_page_count cap es2.
Proof. intros H. unfold toc_page_count. by rewrite H. Qed.

Lemma length_toc_document (g : TocGeometry) (cap : Z) (entries : list TocEntry) (n : Z) :
  length (toc_document g cap entries n) = Z.to_nat n.
Proof. unfold toc_document. by rewrite length_fmap, length_seqZ. Qed.

Lemma entries_ops_lines (g : TocGeometry) (f : string * Z) (es : list TocEntry) :
  forall y : Z,
    length (filter (fun op => Is_true (is_right_string op)) (entries_ops g f y es))
    = length es.
Proof.
  induction es as [|e rest IH]; intros y; cbn [entries_ops]; [done|].
  rewrite filter_app, length_app, IH. unfold entry_ops.
  destruct (_ >? _); cbn; reflexivity.
Qed.

Lemma length_page_entries (cap : Z) (entries : list TocEntry) (i : Z) :
  1 <= cap -> 0 <= i ->
  Z.of_nat (length (page_entries cap entries i))
  = Z.min cap (Z.max 0 (Z.of_nat (length entries) - i * cap)).
Proof.
  intros Hcap Hi. unfold page_entries, Py.slice.
  rewrite py_min_spec, length_take, length_drop. nia.
Qed.

Lemma toc_document_lookup (g : TocGeometry) (cap : Z) (entries : list TocEntry)
    (n : Z) (i : nat) (p : Page) :
  toc_document g cap entries n !! i = Some p ->
  p = mkPage (page_w g) (page_h g) (page_ops g cap entries (Z.of_nat i)) false
  /\ Z.of_nat i < n.
Proof.
  unfold toc_document. rewrite list_lookup_fmap.
  destruct (seqZ 0 n !! i) as [j|] eqn:E; [|done].
  apply lookup_seqZ in E as [-> Hlt]. cbn. intros [= <-].
  split; [by rewrite Z.add_0_l | done].
Qed.

Lemma entry_lines_toc_page (g : TocGeometry) (cap : Z) (entries : list TocEntry) (i : Z) :
  1 <= cap -> 0 <= i ->
  entry_lines (mkPage (page_w g) (page_h g) (page_ops g cap entries i) false)
  = Z.min cap (Z.max 0 (Z.of_nat (length entries) - i * cap)).
Proof.
  intros Hcap Hi. unfold entry_lines, page_ops. cbn [content].
  rewrite filter_app, length_app, entries_ops_lines. cbn.
  rewrite Nat.add_0_l. by apply length_page_entries.
Qed.

(** C3.  For every entry list of length N the TOC builder returns
    max(1, ceil(N / capacity)) as its page count and renders exactly that
    many pages; an empty list still gives one page. *)
Theorem toc_layout_page_count (g : TocGeometry) (entries : list TocEntry) :
  line_h g <> 0 ->
  exists (cap : Z) (doc : Document) (pages : Z),
    lines_per_page g = ok cap
    /\ _build_toc_pdf_bytes g entries = ok (doc, pages)
    /\ pages = Z.max 1 (Qceiling (inject_Z (Z.of_nat (length entries)) / inject_Z cap))
    /\ Z.of_nat (length doc) = pages
    /\ (entries = [] -> pages = 1).
Proof.
  intros Hline.
  pose proof (lines_per_page_value g Hline) as Hcap.
  set (cap := Z.max 1 _) in Hcap.
  assert (Hpos : 0 < cap) by (subst cap; lia).
  exists cap, (toc_document g cap entries (toc_page_count cap entries)),
         (toc_page_count cap entries).
  split; [exact Hcap|]. split; [by apply build_toc_spec|].
  assert (Hcount : toc_page_count cap entries
            = Z.max 1 (Qceiling (inject_Z (Z.of_nat (length entries)) / inject_Z cap))).
  { unfold toc_page_count. rewrite py_max_spec. f_equal.
    by apply round_up_div_ceiling. }
  split; [exact Hcount|]. split.
  - rewrite length_toc_document.
    pose proof (toc_page_count_pos cap entries). lia.
  - intros ->. unfold toc_page_count. cbn [length]. rewrite py_max_spec.
    replace (Z.of_nat 0 + (cap - 1)) with (cap - 1) by lia.
    rewrite Z.div_small by lia. reflexivity.
Qed.

Lemma toc_layout_page_count_witness :
  line_h default_geometry <> 0
  /\ exists (cap : Z) (doc : Document) (pages : Z),
      lines_per_page default_geometry = ok cap
      /\ _build_toc_pdf_bytes default_geometry [("a.pdf", 2); ("b.pdf", 4)] = ok (doc, pages)
      /\ pages = Z.max 1 (Qceiling (inject_Z (Z.of_nat 2) / inject_Z cap))
      /\ Z.of_nat (length doc) = pages
      /\ ([("a.pdf", 2); ("b.pdf", 4)] = [] -> pages = 1).
Proof.
  split.
  - vm_compute. discriminate.
  - apply (toc_layout_page_count default_geometry [("a.pdf", 2); ("b.pdf", 4)]).
    vm_compute. discriminate.
Defined.

(** C4.  The capacity is floor((usable_h - header_space) / line_h) clamped
    to at least 1: a strictly positive value fixed by the geometry.  The
    builder uses that one value whatever the entries are: every rendered
    page holds the next [cap] entries (the last page the remainder), and
    entry lists of equal length, such as the placeholder entries and the
    final entries, get the same page count. *)
Theorem toc_capacity_geometry_only (g : TocGeometry) :
  line_h g <> 0 ->
  exists cap : Z,
    lines_per_page g = ok cap
    /\ cap = Z.max 1 (Qfloor (inject_Z (usable_h g - header_space g) / inject_Z (line_h g)))
    /\ 1 <= cap
    /\ (forall entries : list TocEntry,
          exists doc : Document,
            _build_toc_pdf_bytes g entries = ok (doc, toc_page_count cap entries)
            /\ forall (i : nat) (p : Page),
                 doc !! i = Some p ->
                 entry_lines p
                 = Z.min cap (Z.max 0 (Z.of_nat (length entries) - Z.of_nat i * cap)))
    /\ (forall es1 es2 : list TocEntry,
          length es1 = length es2 ->
          toc_page_count cap es1 = toc_page_count cap es2).
Proof.
  intros Hline.
  pose proof (lines_per_page_value g Hline) as Hcap.
  exists (Z.max 1 ((usable_h g - header_space g) / line_h g)).
  split; [exact Hcap|]. split; [by rewrite floor_div_Q|]. split; [lia|]. split.
  - intros entries. eexists. split; [by apply build_toc_spec|].
    intros i p Hp. apply toc_document_lookup in Hp as [-> _].
    apply entry_lines_toc_page; lia.
  - intros es1 es2 Hlen. by apply toc_page_count_length.
Qed.

Lemma toc_capacity_geometry_only_witness :
  line_h default_geometry <> 0
  /\ exists cap : Z,
      lines_per_page default_geometry = ok cap
      /\ cap = Z.max 1 (Qfloor (inject_Z (usable_h default_geometry - header_space default_geometry)
                                / inject_Z (line_h default_geometry)))
      /\ 1 <= cap
      /\ (forall entries : list TocEntry,
            exists doc : Document,
              _build_toc_pdf_bytes default_geometry entries = ok (doc, toc_page_count cap entries)
              /\ forall (i : nat) (p : Page),
                   doc !! i = Some p ->
                   entry_lines p
                   = Z.min cap (Z.max 0 (Z.of_nat (length entries) - Z.of_nat i * cap)))
      /\ (forall es1 es2 : list TocEntry,
            length es1 = length es2 ->
            toc_page_count cap es1 = toc_page_count cap es2).
Proof.
  split.
  - vm_compute. discriminate.
  - apply (toc_capacity_geometry_only default_geometry). vm_compute. discriminate.
Defined.

(** ** Start pages *)

Lemma sumZ_cons (x : Z) (l : list Z) : sumZ (x :: l) = x + sumZ l.
Proof. reflexivity. Qed.

Lemma length_start_pages (page_counts : list Z) : forall current : Z,
  length (start_pages current page_counts) = length page_counts.
Proof.
  induction page_counts as [|n rest IH]; intros current; cbn; [done|].
  by rewrite IH.
Qed.

Lemma start_pages_lookup (page_counts : list Z) : forall (current : Z) (i : nat),
  (i < length page_counts)%nat ->
  start_pages current page_counts !! i = Some (current + sumZ (take i page_counts)).
Proof.
  induction page_counts as [|n rest IH]; intros current i Hi; cbn in Hi; [lia|].
  destruct i as [|i]; cbn [start_pages lookup list_lookup take].
  - apply (f_equal Some). cbn. lia.
  - rewrite IH by lia. rewrite sumZ_cons. apply (f_equal Some). lia.
Qed.

Lemma start_pages_lookup_inv (page_counts : list Z) (current : Z) (i : nat) (a : Z) :
  start_pages current page_counts !! i = Some a ->
  (i < length page_counts)%nat /\ a = current + sumZ (take i page_counts).
Proof.
  intros H. assert (Hi : (i < length page_counts)%nat).
  { apply lookup_lt_Some in H. by rewrite length_start_pages in H. }
  split; [done|]. rewrite start_pages_lookup in H by done. by injection H.
Qed.

Lemma sumZ_take_S (l : list Z) (i : nat) (n : Z) :
  l !! i = Some n -> sumZ (take (S i) l) = sumZ (take i l) + n.
Proof.
  revert i. induction l as [|x rest IH]; intros i H; [done|].
  destruct i as [|i]; cbn [take lookup list_lookup] in *.
  - injection H as ->. rewrite sumZ_cons, take_0. cbn. lia.
  - rewrite !sumZ_cons, (IH i H). lia.
Qed.

Lemma sumZ_take_nonneg (l : list Z) (i : nat) :
  Forall (fun n => 0 <= n) l -> 0 <= sumZ (take i l).
Proof.
  intros Hl. revert i. induction Hl as [|x rest Hx _ IH]; intros i.
  - by rewrite take_nil.
  - destruct i as [|i]; cbn [take]; [done|].
    rewrite sumZ_cons. specialize (IH i). lia.
Qed.

Lemma sumZ_take_le (l : list Z) (i j : nat) :
  Forall (fun n => 0 <= n) l -> (i <= j)%nat -> sumZ (take i l) <= sumZ (take j l).
Proof.
  intros Hl. revert i j. induction Hl as [|x rest Hx Hrest IH]; intros i j Hij.
  - by rewrite !take_nil.
  - destruct i as [|i], j as [|j]; cbn [take]; rewrite ?sumZ_cons; try (cbn; lia).
    + pose proof (sumZ_take_nonneg rest j Hrest). cbn. lia.
    + specialize (IH i j ltac:(lia)). lia.
Qed.

Lemma sumZ_take_lt (l : list Z) (i j : nat) :
  Forall (fun n => 1 <= n) l -> (i < j <= length l)%nat ->
  sumZ (take i l) < sumZ (take j l).
Proof.
  intros Hl. revert i j. induction Hl as [|x rest Hx Hrest IH]; intros i j Hij.
  - cbn in Hij. lia.
  - cbn [length] in Hij. destruct j as [|j]; [lia|].
    destruct i as [|i]; cbn [take]; rewrite ?sumZ_cons.
    + assert (Hnn : Forall (fun n => 0 <= n) rest).
      { eapply Forall_impl; [exact Hrest|]. cbn. lia. }
      pose proof (sumZ_take_nonneg rest j Hnn). cbn. lia.
    + specialize (IH i j ltac:(lia)). lia.
Qed.

Lemma length_make_toc_entries (files : list string) (starts : list Z) :
  length starts = length files ->
  length (make_toc_entries files starts) = length files.
Proof.
  intros H. unfold make_toc_entries.
  rewrite length_fmap, length_zip_with. lia.
Qed.

(** ** The verification pass *)

Lemma build_toc_count_by_length (g : TocGeometry) :
  count_by_length (_build_toc_pdf_bytes g).
Proof.
  intros es1 es2 d1 d2 n1 n2 Hlen H1 H2.
  destruct (Z.eq_dec (line_h g) 0) as [E|E].
  - by rewrite build_toc_raises in H1.
  - pose proof (lines_per_page_value g E) as Hcap.
    rewrite (build_toc_spec _ _ _ Hcap) in H1.
    rewrite (build_toc_spec _ _ _ Hcap) in H2.
    injection H1 as _ <-. injection H2 as _ <-.
    by apply toc_page_count_length.
Qed.

(** With the repository's builder the check never finds a difference. *)
Lemma resolve_with_builder (g : TocGeometry) (cap : Z)
    (files : list string) (page_counts : list Z) :
  lines_per_page g = ok cap ->
  length page_counts = length files ->
  let n := toc_page_count cap (placeholder_entries files) in
  let es := make_toc_entries files (start_pages (n + 1) page_counts) in
  resolve_pagination (_build_toc_pdf_bytes g) files page_counts
  = ok (mkPagination (toc_document g cap es n) n (start_pages (n + 1) page_counts) es).
Proof.
  intros Hcap Hlen n es. unfold resolve_pagination.
  fold (placeholder_entries files).
  rewrite (build_toc_spec _ _ _ Hcap). cbn [rbind snd].
  fold n. fold es.
  rewrite (build_toc_spec _ _ _ Hcap). cbn [rbind fst snd].
  assert (E : toc_page_count cap es = n).
  { apply toc_page_count_length. subst es. unfold placeholder_entries.
    rewrite length_make_toc_entries, length_fmap; [done|].
    by rewrite length_start_pages. }
  rewrite E, Z.eqb_refl. reflexivity.
Qed.

(** ** The overlay and the stamping loop *)

Lemma overlay_spec (w h : Z) (header_text : string) (i total : Z) :
  _overlay_header_footer_pdf_bytes w h header_text i total
  = [mkPage w h (overlay_ops w h header_text i total) false].
Proof.
  unfold _overlay_header_footer_pdf_bytes, overlay_ops, footer_text.
  destruct (negb _); reflexivity.
Qed.

Lemma stamp_pages_spec (header_text : string) (total : Z) (pages : list Page) :
  forall idx : Z,
    stamp_pages header_text total idx pages = ok (stamped header_text total idx pages).
Proof.
  induction pages as [|page rest IH]; intros idx; cbn [stamp_pages stamped]; [done|].
  rewrite overlay_spec, IH. cbn [rbind].
  unfold stamp_page, merge_page. by destruct (merge_raises page).
Qed.

Lemma length_stamped (header_text : string) (total : Z) (pages : list Page) :
  forall idx : Z, length (stamped header_text total idx pages) = length pages.
Proof.
  induction pages as [|page rest IH]; intros idx; cbn; [done|]. by rewrite IH.
Qed.

Lemma stamped_lookup (header_text : string) (total : Z) (pages : list Page) :
  forall (idx : Z) (i : nat),
    stamped header_text total idx pages !! i
    = stamp_page header_text total (idx + Z.of_nat i) <$> pages !! i.
Proof.
  induction pages as [|page rest IH]; intros idx i; [done|].
  destruct i as [|i]; cbn [stamped lookup list_lookup].
  - cbn. by rewrite Z.add_0_r.
  - rewrite IH. by replace (idx + 1 + Z.of_nat i) with (idx + Z.of_nat (S i)) by lia.
Qed.

Lemma stamp_writer_spec (writer : PdfWriter) (header_text : string) :
  _stamp_header_footer_on_writer writer header_text
  = ok (mkWriter
          (stamped header_text (Z.of_nat (length (w_pages writer))) 0 (w_pages writer))
          (w_outline writer)).
Proof.
  unfold _stamp_header_footer_on_writer. by rewrite stamp_pages_spec.
Qed.

(** ** The run of the merge *)

Lemma count_pages_loop_ok (env : Env) (n_files : Z) (files : list string)
    (docs : list Document) :
  Forall2 (readable env) files docs ->
  forall (i : Z) (s : RunState),
    count_pages_loop env n_files i files s
    = (ok (fmap (fun d => Z.of_nat (length d)) docs),
       mkState (events s ++ counting_events n_files i files) (disk s)).
Proof.
  induction 1 as [|f d files docs Hf _ IH]; intros i s; cbn [count_pages_loop counting_events].
  - unfold ret. rewrite app_nil_r. by destruct s.
  - unfold bind at 1. cbn [progress_cb]. unfold _count_pages. rewrite Hf.
    unfold bind. rewrite IH. cbn. unfold ret. by rewrite <- app_assoc.
Qed.

Lemma count_pages_loop_fail (env : Env) (n_files : Z) (good : list string)
    (docs : list Document) (f e : string) (rest : list string) :
  Forall2 (readable env) good docs ->
  PdfReader env f = inl e ->
  forall (i : Z) (s : RunState),
    count_pages_loop env n_files i (good ++ f :: rest) s
    = (raise (RuntimeError ("Failed to read PDF: " +:+ f +:+ newline +:+ e)),
       mkState (events s ++ counting_events n_files i (good ++ [f])) (disk s)).
Proof.
  intros Hgood Hf.
  induction Hgood as [|g d good docs Hg _ IH]; intros i s;
    cbn [app count_pages_loop counting_events].
  - unfold bind. cbn [progress_cb]. unfold _count_pages. by rewrite Hf.
  - unfold bind at 1. cbn [progress_cb]. unfold _count_pages. rewrite Hg.
    unfold bind. rewrite IH. cbn. by rewrite <- app_assoc.
Qed.

Lemma first_unreadable (env : Env) (files : list string) :
  Exists (unreadable env) files ->
  exists (good : list string) (docs : list Document) (f e : string) (rest : list string),
    files = (good ++ f :: rest)%list
    /\ Forall2 (readable env) good docs
    /\ PdfReader env f = inl e.
Proof.
  induction files as [|f files IH]; intros H; [by apply Exists_nil in H|].
  destruct (PdfReader env f) as [e|d] eqn:Ef.
  - exists [], [], f, e, files. by repeat split; [constructor|].
  - apply Exists_cons in H as [[e He]|H]; [unfold readable in *; congruence|].
    destruct (IH H) as (good & docs & f' & e' & rest & -> & Hgood & Hf').
    exists (f :: good), (d :: docs), f', e', rest.
    repeat split; [by constructor | done].
Qed.

Lemma log_entries_spec (es : list TocEntry) : forall s : RunState,
  log_entries es s
  = (ok tt,
     mkState (events s
              ++ fmap (fun e => Log ("  " +:+ fst e +:+ " -> page " +:+ Py.str (snd e))) es)
       (disk s)).
Proof.
  induction es as [|[name pg] rest IH]; intros s; cbn [log_entries fmap list_fmap].
  - unfold ret. rewrite app_nil_r. by destruct s.
  - unfold bind. cbn [log_cb]. rewrite IH. cbn. by rewrite <- app_assoc.
Qed.

Lemma merge_files_loop_ok (env : Env) (n_files : Z) (starts : list Z)
    (files : list string) (docs : list Document) :
  Forall2 (readable env) files docs ->
  forall (i : Z) (writer : PdfWriter) (s : RunState),
    1 <= i ->
    (Z.to_nat (i - 1) + length files <= length starts)%nat ->
    merge_files_loop env n_files i starts files writer s
    = (ok (mkWriter (w_pages writer ++ concat docs)
             (w_outline writer ++ outline_items env i starts files)),
       mkState (events s ++ merging_events n_files i files) (disk s)).
Proof.
  induction 1 as [|f d files docs Hf _ IH]; intros i writer s Hi Hlen;
    cbn [merge_files_loop merging_events outline_items concat].
  - unfold ret. rewrite !app_nil_r. by destruct s, writer.
  - cbn [length] in Hlen. unfold bind. cbn [progress_cb].
    unfold readable in Hf. rewrite Hf.
    destruct (lookup_lt_is_Some_2 starts (Z.to_nat (i - 1)) ltac:(lia)) as [st Hst].
    rewrite Hst, IH by lia. cbn [w_pages w_outline events disk].
    replace (i + 1 - 1) with i by lia.
    destruct (outline_raises env (_safe_basename f)); cbn [w_pages w_outline];
      by rewrite <- !app_assoc.
Qed.

(** A run on a folder whose PDFs are all readable, with a writable
    destination: the result, the callback calls and the file written. *)
Lemma merge_success (env : Env) (folder output_path header_text : string)
    (s : RunState) (files : list string) (docs : list Document) :
  _list_pdfs_in_folder env folder = files ->
  files <> [] ->
  Forall2 (readable env) files docs ->
  write_error env output_path = None ->
  let page_counts := fmap (fun d : Document => Z.of_nat (length d)) docs in
  let n := toc_page_count 45 (placeholder_entries files) in
  let start := start_pages (n + 1) page_counts in
  let pages := assembled_pages files docs in
  let total := Z.of_nat (length pages) in
  merge_pdfs_with_toc env folder output_path header_text s
  = (ok (mkResult folder output_path header_text files page_counts n start total),
     mkState (events s ++ run_events files docs)
       (<[output_path := mkWriter (stamped header_text total 0 pages)
                           (outline_items env 1 start files)]> (disk s))).
Proof.
  intros Hlist Hne Hread Hwrite page_counts n start pages total.
  unfold merge_pdfs_with_toc. rewrite Hlist.
  destruct files as [|f0 files0]; [done|].
  set (files := f0 :: files0) in *.
  assert (Hlen : length page_counts = length files).
  { subst page_counts. rewrite length_fmap. symmetry. by eapply Forall2_length. }
  unfold bind at 1. rewrite (count_pages_loop_ok _ _ _ _ Hread). fold page_counts.
  unfold bind at 1, lift at 1.
  rewrite (resolve_with_builder default_geometry 45 files page_counts
             lines_per_page_default Hlen).
  fold n. fold start. cbn [toc_pages toc_entries toc_bytes starts].
  unfold bind at 1. cbn [log_cb].
  unfold bind at 1. rewrite log_entries_spec.
  unfold bind at 1.
  rewrite (merge_files_loop_ok _ _ _ _ _ Hread) by
    (subst start; rewrite ?length_start_pages; lia).
  unfold bind at 1. cbn [progress_cb].
  unfold bind at 1, lift at 1. rewrite stamp_writer_spec.
  unfold bind at 1, write_output. rewrite Hwrite. unfold ret.
  cbn [w_pages w_outline events disk app].
  rewrite length_stamped. unfold run_events, toc_log, assembled_pages in *.
  fold page_counts. fold n. fold start. subst pages total.
  cbn [events disk]. rewrite <- !app_assoc. reflexivity.
Qed.

(** ** Pagination theorems *)

(** C1 (amended).  For every non-empty list of documents with their page
    counts (lengths, hence non-negative), the resolver returns a plan whose
    TOC page count is the one the builder reports for the final entries,
    with start_page[0] = toc_page_count + 1, start_page[i+1] =
    start_page[i] + page_count[i], start_page[i] = toc_page_count + 1 + the
    sum of the first i page counts; the sequence is non-decreasing, and
    strictly increasing when every page count is at least 1. *)
Theorem start_pages_cumulative (files : list string) (page_counts : list Z) :
  files <> [] ->
  length page_counts = length files ->
  Forall (fun n => 0 <= n) page_counts ->
  exists plan : Pagination,
    resolve_pagination (_build_toc_pdf_bytes default_geometry) files page_counts = ok plan
    /\ _build_toc_pdf_bytes default_geometry (toc_entries plan)
       = ok (toc_bytes plan, toc_pages plan)
    /\ length (starts plan) = length files
    /\ starts plan !! 0%nat = Some (toc_pages plan + 1)
    /\ (forall (i : nat) (a n : Z),
          starts plan !! i = Some a -> page_counts !! i = Some n ->
          (S i < length files)%nat ->
          starts plan !! S i = Some (a + n))
    /\ (forall i : nat,
          (i < length files)%nat ->
          starts plan !! i = Some (toc_pages plan + 1 + sumZ (take i page_counts)))
    /\ non_decreasing (starts plan)
    /\ (Forall (fun n => 1 <= n) page_counts -> strictly_increasing (starts plan)).
Proof.
  intros Hne Hlen Hnn.
  pose proof (resolve_with_builder default_geometry 45 files page_counts
                lines_per_page_default Hlen) as Hres.
  cbv zeta in Hres.
  set (n := toc_page_count 45 (placeholder_entries files)) in *.
  set (es := make_toc_entries files (start_pages (n + 1) page_counts)) in *.
  eexists. split; [exact Hres|]. cbn [toc_entries toc_bytes toc_pages starts].
  assert (Hes : length es = length (placeholder_entries files)).
  { subst es. unfold placeholder_entries.
    rewrite length_make_toc_entries, length_fmap; [done|].
    by rewrite length_start_pages. }
  split.
  { rewrite (build_toc_spec _ _ _ lines_per_page_default).
    by rewrite (toc_page_count_length 45 es _ Hes). }
  split; [by rewrite length_start_pages|].
  split.
  { destruct files as [|f files]; [done|]. destruct page_counts; [done|]. reflexivity. }
  split.
  { intros i a m Ha Hm Hi. apply start_pages_lookup_inv in Ha as [_ ->].
    rewrite start_pages_lookup by lia. rewrite (sumZ_take_S _ _ _ Hm).
    apply (f_equal Some). lia. }
  split.
  { intros i Hi. apply start_pages_lookup. lia. }
  split.
  - intros i j a b Hij Ha Hb.
    apply start_pages_lookup_inv in Ha as [_ ->].
    apply start_pages_lookup_inv in Hb as [_ ->].
    pose proof (sumZ_take_le page_counts i j Hnn ltac:(lia)). lia.
  - intros Hpos i j a b Hij Ha Hb.
    apply start_pages_lookup_inv in Ha as [_ ->].
    apply start_pages_lookup_inv in Hb as [Hj ->].
    pose proof (sumZ_take_lt page_counts i j Hpos ltac:(lia)). lia.
Qed.

(** C2 (amended).  The resolver makes one verification and at most one
    correction.  With a layout that does not raise: if the page count of
    the final entries equals the provisional one, the plan keeps the
    provisional count and its start pages; otherwise the start pages are
    recomputed once from the new count and the page count of a third
    layout is taken as it is, without a further check.  No iteration bound
    and no convergence error exist.  When the layout's page count depends
    on the number of entries only, as the repository's builder does, the
    counts always agree and the plan is consistent. *)
Theorem resolver_single_correction
    (layout : list TocEntry -> result (Document * Z))
    (files : list string) (page_counts : list Z)
    (d0 d1 : Document) (t0 t1 : Z) :
  layout (placeholder_entries files) = ok (d0, t0) ->
  layout (make_toc_entries files (start_pages (t0 + 1) page_counts)) = ok (d1, t1) ->
  (t1 = t0 ->
     resolve_pagination layout files page_counts
     = ok (mkPagination d1 t0 (start_pages (t0 + 1) page_counts)
             (make_toc_entries files (start_pages (t0 + 1) page_counts))))
  /\ (t1 <> t0 ->
      forall (d2 : Document) (t2 : Z),
        layout (make_toc_entries files (start_pages (t1 + 1) page_counts)) = ok (d2, t2) ->
        resolve_pagination layout files page_counts
        = ok (mkPagination d2 t2 (start_pages (t1 + 1) page_counts)
                (make_toc_entries files (start_pages (t1 + 1) page_counts))))
  /\ (count_by_length layout -> length page_counts = length files ->
      t1 = t0
      /\ exists plan : Pagination,
           resolve_pagination layout files page_counts = ok plan
           /\ consistent plan page_counts
           /\ layout (toc_entries plan) = ok (toc_bytes plan, toc_pages plan)).
Proof.
  intros H0 H1.
  assert (Hsame : t1 = t0 ->
     resolve_pagination layout files page_counts
     = ok (mkPagination d1 t0 (start_pages (t0 + 1) page_counts)
             (make_toc_entries files (start_pages (t0 + 1) page_counts)))).
  { intros ->. unfold resolve_pagination. fold (placeholder_entries files).
    rewrite H0. cbn [rbind snd]. rewrite H1. cbn [rbind fst snd].
    by rewrite Z.eqb_refl. }
  split; [exact Hsame|]. split.
  - intros Hne d2 t2 H2. unfold resolve_pagination. fold (placeholder_entries files).
    rewrite H0. cbn [rbind snd]. rewrite H1. cbn [rbind fst snd].
    destruct (Z.eqb_spec t1 t0) as [E|_]; [contradiction|]. cbn [negb].
    rewrite H2. reflexivity.
  - intros Hcount Hlen.
    assert (E : t1 = t0).
    { eapply (Hcount _ _ d1 d0); [|exact H1|exact H0].
      unfold placeholder_entries.
      rewrite length_make_toc_entries, length_fmap; [done|].
      by rewrite length_start_pages. }
    split; [exact E|]. eexists. split; [by apply Hsame|].
    split; [reflexivity|]. cbn [toc_entries toc_bytes toc_pages].
    by rewrite H1, E.
Qed.

(** ** Concrete runs *)

Lemma start_pages_cumulative_witness :
  ["/d/a.pdf"; "/d/b.pdf"] <> []
  /\ length [2; 3] = length ["/d/a.pdf"; "/d/b.pdf"]
  /\ Forall (fun n => 0 <= n) [2; 3]
  /\ exists plan : Pagination,
       resolve_pagination (_build_toc_pdf_bytes default_geometry)
         ["/d/a.pdf"; "/d/b.pdf"] [2; 3] = ok plan
       /\ starts plan !! 0%nat = Some (toc_pages plan + 1)
       /\ non_decreasing (starts plan).
Proof.
  assert (H1 : ["/d/a.pdf"; "/d/b.pdf"] <> []) by discriminate.
  assert (H2 : length [2; 3] = length ["/d/a.pdf"; "/d/b.pdf"]) by reflexivity.
  assert (H3 : Forall (fun n => 0 <= n) [2; 3]) by (repeat constructor; lia).
  repeat split; try assumption.
  destruct (start_pages_cumulative ["/d/a.pdf"; "/d/b.pdf"] [2; 3] H1 H2 H3)
    as (plan & Hres & _ & _ & Hfirst & _ & _ & Hmono & _).
  exists plan. repeat split; assumption.
Defined.

(** C1, as stated, fails on a folder holding a PDF with no page: both
    documents start on page 2. *)
Lemma start_pages_not_strictly_increasing :
  fst (merge_pdfs_with_toc Examples.env_zero_page "/d" "/out.pdf" ""
         (initial_state ∅))
  = ok (mkResult "/d" "/out.pdf" "" ["/d/a.pdf"; "/d/b.pdf"] [0; 3] 1 [2; 2] 4)
  /\ ~ strictly_increasing [2; 2].
Proof.
  split.
  - vm_compute. reflexivity.
  - intros H. specialize (H 0%nat 1%nat 2 2 ltac:(lia) eq_refl eq_refl). lia.
Qed.

Lemma resolver_single_correction_witness :
  Examples.growing_layout (placeholder_entries ["a.pdf"])
  = ok ([Examples.blank_page], 1)
  /\ Examples.growing_layout (make_toc_entries ["a.pdf"] (start_pages (1 + 1) [1]))
     = ok ([Examples.blank_page; Examples.blank_page], 2)
  /\ (2 <> 1 ->
      forall (d2 : Document) (t2 : Z),
        Examples.growing_layout (make_toc_entries ["a.pdf"] (start_pages (2 + 1) [1]))
        = ok (d2, t2) ->
        resolve_pagination Examples.growing_layout ["a.pdf"] [1]
        = ok (mkPagination d2 t2 (start_pages (2 + 1) [1])
                (make_toc_entries ["a.pdf"] (start_pages (2 + 1) [1])))).
Proof.
  assert (H0 : Examples.growing_layout (placeholder_entries ["a.pdf"])
               = ok ([Examples.blank_page], 1)) by reflexivity.
  assert (H1 : Examples.growing_layout
                 (make_toc_entries ["a.pdf"] (start_pages (1 + 1) [1]))
               = ok ([Examples.blank_page; Examples.blank_page], 2)) by reflexivity.
  split; [exact H0|]. split; [exact H1|].
  exact (proj1 (proj2 (resolver_single_correction Examples.growing_layout
                         ["a.pdf"] [1] _ _ 1 2 H0 H1))).
Defined.

(** C2, as stated, fails: with a layout whose page count keeps changing
    the resolver neither iterates nor raises; it returns a plan whose
    start pages do not match its TOC page count. *)
Lemma resolver_returns_unstable_plan :
  resolve_pagination Examples.growing_layout ["a.pdf"] [1]
  = ok (mkPagination (replicate 3 Examples.blank_page) 3 [3] [("a.pdf", 3)])
  /\ ~ consistent (mkPagination (replicate 3 Examples.blank_page) 3 [3] [("a.pdf", 3)]) [1].
Proof.
  split.
  - vm_compute. reflexivity.
  - unfold consistent. cbn. discriminate.
Qed.

(** ** Failing runs *)

Lemma sort_by_key_nil {A : Type} (key : A -> string) : sort_by_key key [] = [].
Proof. reflexivity. Qed.

Lemma list_pdfs_none (env : Env) (folder : string) :
  (forall (names : list string) (n : string),
     os_listdir env folder = Some names -> n ∈ names -> _is_pdf n = true ->
     os_isfile env (OsPath.join folder n) = false) ->
  _list_pdfs_in_folder env folder = [].
Proof.
  intros H. unfold _list_pdfs_in_folder.
  destruct (os_listdir env folder) as [names|]; [|done].
  specialize (H names).
  assert (E : filter (fun f => Is_true (os_isfile env f))
                (fmap (OsPath.join folder) (filter (fun n => Is_true (_is_pdf n)) names))
              = []).
  { induction names as [|n names IH]; [done|].
    assert (IH' : forall m, Some (n :: names) = Some (n :: names) -> m ∈ names ->
                    _is_pdf m = true -> os_isfile env (OsPath.join folder m) = false).
    { intros m _ Hm. apply H; [done | by constructor]. }
    rewrite filter_cons. destruct (decide (Is_true (_is_pdf n))) as [Hpdf|_].
    - rewrite fmap_cons, filter_cons.
      rewrite (H n eq_refl ltac:(constructor) (Is_true_true_1 _ Hpdf)).
      destruct (decide (Is_true false)) as [[]|_].
      apply IH. intros m _. by apply IH'.
    - apply IH. intros m _. by apply IH'. }
  by rewrite E.
Qed.

(** C9.  When the folder holds no PDF file (no listed name that ends in
    .pdf and is a file, or the listing itself fails), the merge raises the
    empty-input error (ValueError("No PDF files found in the selected
    folder.")) at once: the run state is returned as it was, so nothing
    has been written and no callback has been called. *)
Theorem merge_empty_folder (env : Env) (folder output_path header_text : string)
    (s : RunState) :
  (forall (names : list string) (n : string),
     os_listdir env folder = Some names -> n ∈ names -> _is_pdf n = true ->
     os_isfile env (OsPath.join folder n) = false) ->
  merge_pdfs_with_toc env folder output_path header_text s
  = (raise (ValueError "No PDF files found in the selected folder."), s)
  /\ disk (snd (merge_pdfs_with_toc env folder output_path header_text s)) !! output_path
     = disk s !! output_path.
Proof.
  intros H. unfold merge_pdfs_with_toc. rewrite (list_pdfs_none env folder H).
  split; reflexivity.
Qed.

Lemma merge_empty_folder_witness :
  (forall (names : list string) (n : string),
     os_listdir Examples.env_no_pdf "/d" = Some names -> n ∈ names -> _is_pdf n = true ->
     os_isfile Examples.env_no_pdf (OsPath.join "/d" n) = false)
  /\ merge_pdfs_with_toc Examples.env_no_pdf "/d" "/out.pdf" "hdr" (initial_state ∅)
     = (raise (ValueError "No PDF files found in the selected folder."), initial_state ∅).
Proof.
  assert (H : forall (names : list string) (n : string),
     os_listdir Examples.env_no_pdf "/d" = Some names -> n ∈ names -> _is_pdf n = true ->
     os_isfile Examples.env_no_pdf (OsPath.join "/d" n) = false).
  { intros names n Hnames Hn Hpdf. cbn in Hnames. injection Hnames as <-.
    apply list_elem_of_In in Hn. cbn in Hn.
    destruct Hn as [<-|[<-|[]]]; vm_compute in Hpdf; discriminate. }
  split; [exact H|].
  exact (proj1 (merge_empty_folder Examples.env_no_pdf "/d" "/out.pdf" "hdr"
                  (initial_state ∅) H)).
Defined.

(** The base name is the end of the path. *)
Lemma after_last_sep_suffix (p : string) : forall tail : string,
  OsPath.after_last_sep tail p = tail
  \/ exists pre : string, p = pre +:+ OsPath.after_last_sep tail p.
Proof.
  induction p as [|c r IH]; intros tail; cbn [OsPath.after_last_sep]; [by left|].
  destruct (Ascii.eqb c OsPath.sep).
  - right. destruct (IH r) as [E|[pre E]].
    + exists (String c EmptyString). by rewrite E.
    + exists (String c pre).
      change (String c r = String c (pre +:+ OsPath.after_last_sep r r)).
      by rewrite <- E.
  - destruct (IH tail) as [E|[pre E]]; [by left|].
    right. exists (String c pre).
    change (String c r = String c (pre +:+ OsPath.after_last_sep tail r)).
    by rewrite <- E.
Qed.

Lemma basename_suffix (p : string) :
  exists pre : string, p = pre +:+ OsPath.basename p.
Proof.
  unfold OsPath.basename. destruct (after_last_sep_suffix p p) as [E|H]; [|done].
  exists EmptyString. by rewrite E.
Qed.

(** C8.  When some listed PDF cannot be opened or parsed, the merge raises
    RuntimeError for the first such file in listing order; the message is
    "Failed to read PDF: " followed by the file's path, which ends with the
    file's name, and the reader's text.  Only progress callbacks were made:
    the disk is unchanged, so nothing is written to the destination. *)
Theorem merge_unreadable_source (env : Env) (folder output_path header_text : string)
    (s : RunState) :
  Exists (unreadable env) (_list_pdfs_in_folder env folder) ->
  exists (f e dir : string) (s' : RunState),
    f ∈ _list_pdfs_in_folder env folder
    /\ PdfReader env f = inl e
    /\ f = dir +:+ _safe_basename f
    /\ merge_pdfs_with_toc env folder output_path header_text s
       = (raise (RuntimeError ("Failed to read PDF: " +:+ f +:+ newline +:+ e)), s')
    /\ disk s' = disk s
    /\ disk s' !! output_path = disk s !! output_path.
Proof.
  intros Hex.
  destruct (first_unreadable env _ Hex) as (good & docs & f & e & rest & Efiles & Hgood & Hf).
  destruct (basename_suffix f) as [dir Hdir].
  exists f, e, dir. eexists. split.
  { rewrite Efiles. apply list_elem_of_In, in_or_app. right. by left. }
  split; [exact Hf|]. split; [exact Hdir|].
  unfold merge_pdfs_with_toc. rewrite Efiles.
  destruct (good ++ f :: rest)%list as [|f0 files0] eqn:E.
  { by destruct good. }
  rewrite <- E. unfold bind at 1.
  rewrite (count_pages_loop_fail env _ good docs f e rest Hgood Hf).
  split; [reflexivity|]. split; reflexivity.
Qed.

Lemma merge_unreadable_source_witness :
  Exists (unreadable Examples.env_corrupt) (_list_pdfs_in_folder Examples.env_corrupt "/d")
  /\ exists (f e : string) (s' : RunState),
       PdfReader Examples.env_corrupt f = inl e
       /\ merge_pdfs_with_toc Examples.env_corrupt "/d" "/out.pdf" "hdr" (initial_state ∅)
          = (raise (RuntimeError ("Failed to read PDF: " +:+ f +:+ newline +:+ e)), s')
       /\ disk s' = ∅.
Proof.
  assert (H : Exists (unreadable Examples.env_corrupt)
                (_list_pdfs_in_folder Examples.env_corrupt "/d")).
  { change (_list_pdfs_in_folder Examples.env_corrupt "/d")
      with ["/d/a.pdf"; "/d/b.pdf"; "/d/c.pdf"].
    apply Exists_cons_tl, Exists_cons_hd.
    exists "EOF marker not found". reflexivity. }
  split; [exact H|].
  destruct (merge_unreadable_source Examples.env_corrupt "/d" "/out.pdf" "hdr"
              (initial_state ∅) H)
    as (f & e & dir & s' & _ & Hf & _ & Hrun & Hdisk & _).
  exists f, e, s'. repeat split; assumption.
Defined.

(** ** Stamping theorems *)

Lemma overlay_ops_right_strings (w h : Z) (header_text : string) (i total : Z) :
  filter (fun op => Is_true (is_right_string op)) (overlay_ops w h header_text i total)
  = [DrawRightString "Helvetica" 9 (w - 36) 24 (footer_text i total)].
Proof. unfold overlay_ops. by destruct (negb _). Qed.

Lemma overlay_ops_last (w h : Z) (header_text : string) (i total : Z) :
  last (overlay_ops w h header_text i total)
  = Some (DrawRightString "Helvetica" 9 (w - 36) 24 (footer_text i total)).
Proof. unfold overlay_ops. by destruct (negb _). Qed.

(** C6 (amended).  The stamping loop returns a writer with the same
    number of pages; for the page at 0-based position i the overlay it
    builds is one page of the page's own size whose only right-aligned
    string, drawn last, is "Page {i+1} of {total}" with total the number
    of pages of the writer.  When merge_page does not raise, the page in
    the result is the original page with that overlay's content appended,
    so its last string is that footer; when merge_page raises, the page is
    left exactly as it was, without a footer. *)
Theorem footer_is_page_i_of_total (writer : PdfWriter) (header_text : string) :
  exists out : PdfWriter,
    _stamp_header_footer_on_writer writer header_text = ok out
    /\ length (w_pages out) = length (w_pages writer)
    /\ forall (i : nat) (page : Page),
         w_pages writer !! i = Some page ->
         let total := Z.of_nat (length (w_pages out)) in
         let footer :=
           DrawRightString "Helvetica" 9 (mediabox_width page - 36) 24
             ("Page " +:+ Py.str (Z.of_nat i + 1) +:+ " of " +:+ Py.str total) in
         exists overlay_page : Page,
           _overlay_header_footer_pdf_bytes (mediabox_width page) (mediabox_height page)
             header_text (Z.of_nat i + 1) total = [overlay_page]
           /\ mediabox_width overlay_page = mediabox_width page
           /\ mediabox_height overlay_page = mediabox_height page
           /\ filter (fun op => Is_true (is_right_string op)) (content overlay_page) = [footer]
           /\ last (content overlay_page) = Some footer
           /\ w_pages out !! i
              = Some (if merge_raises page then page
                      else mkPage (mediabox_width page) (mediabox_height page)
                             (content page ++ content overlay_page) false)
           /\ (merge_raises page = true -> w_pages out !! i = Some page)
           /\ (merge_raises page = false ->
               exists page' : Page,
                 w_pages out !! i = Some page'
                 /\ last (content page') = Some footer
                 /\ filter (fun op => Is_true (is_right_string op)) (content page')
                    = (filter (fun op => Is_true (is_right_string op)) (content page)
                       ++ [footer])%list).
Proof.
  eexists. split; [apply stamp_writer_spec|]. cbn [w_pages].
  split; [apply length_stamped|].
  intros i page Hpage. rewrite length_stamped.
  eexists. split; [apply overlay_spec|]. cbn [mediabox_width mediabox_height content].
  split; [done|]. split; [done|].
  split; [apply overlay_ops_right_strings|]. split; [apply overlay_ops_last|].
  rewrite stamped_lookup, Hpage. cbn [fmap option_fmap option_map].
  unfold stamp_page. rewrite Z.add_0_l.
  destruct (merge_raises page) eqn:E.
  - split; [done|]. split; [done|]. discriminate.
  - split; [done|]. split; [discriminate|]. intros _.
    eexists. split; [reflexivity|]. cbn [content]. split.
    + unfold overlay_ops. by rewrite app_assoc, last_snoc.
    + by rewrite filter_app, overlay_ops_right_strings.
Qed.

(** C6, as stated, fails: pypdf cannot merge into the page of [a.pdf],
    the run completes, and page 2 of the written file is that page as it
    was, with no footer on it. *)
Lemma unmergeable_page_has_no_footer :
  fst (merge_pdfs_with_toc StampExamples.env_unmergeable "/d" "/out.pdf" "hdr"
         (initial_state ∅))
  = ok (mkResult "/d" "/out.pdf" "hdr" ["/d/a.pdf"] [1] 1 [2] 2)
  /\ (fun w => w_pages w !! 1%nat)
       <$> disk (snd (merge_pdfs_with_toc StampExamples.env_unmergeable "/d" "/out.pdf"
                        "hdr" (initial_state ∅))) !! "/out.pdf"
     = Some (Some (mkPage 612 792 [] true))
  /\ filter (fun op => Is_true (is_right_string op)) (content (mkPage 612 792 [] true))
     = [].
Proof.
  split; [vm_compute; reflexivity|]. split; [vm_compute; reflexivity|]. reflexivity.
Qed.

Lemma length_concat_sumZ (docs : list Document) :
  Z.of_nat (length (concat docs))
  = sumZ (fmap (fun d : Document => Z.of_nat (length d)) docs).
Proof.
  induction docs as [|d docs IH]; [done|].
  cbn [concat]. rewrite fmap_cons, sumZ_cons, length_app. lia.
Qed.

Lemma length_assembled_pages (files : list string) (docs : list Document) :
  Z.of_nat (length (assembled_pages files docs))
  = toc_page_count 45 (placeholder_entries files)
    + sumZ (fmap (fun d : Document => Z.of_nat (length d)) docs).
Proof.
  unfold assembled_pages. rewrite length_app, length_toc_document.
  pose proof (toc_page_count_pos 45 (placeholder_entries files)).
  rewrite <- length_concat_sumZ. lia.
Qed.

Lemma assembled_pages_toc (files : list string) (docs : list Document) (i : nat) :
  Z.of_nat i < toc_page_count 45 (placeholder_entries files) ->
  exists toc_ops : list DrawOp,
    assembled_pages files docs !! i = Some (mkPage 612 792 toc_ops false)
    /\ head toc_ops = Some (DrawString "Helvetica" 16 54 738 "Table of Contents").
Proof.
  intros Hi. unfold assembled_pages.
  set (n := toc_page_count 45 (placeholder_entries files)) in *.
  set (es := make_toc_entries _ _).
  exists (page_ops default_geometry 45 es (Z.of_nat i)). split; [|reflexivity].
  rewrite lookup_app_l by (rewrite length_toc_document; lia).
  unfold toc_document. rewrite list_lookup_fmap.
  rewrite (lookup_seqZ_lt 0 n i) by lia. cbn. by rewrite Z.add_0_l.
Qed.

Lemma stamp_page_footer (header_text : string) (total idx : Z) (p : Page) :
  merge_raises p = false ->
  last (content (stamp_page header_text total idx p))
  = Some (DrawRightString "Helvetica" 9 (mediabox_width p - 36) 24
            (footer_text (idx + 1) total)).
Proof.
  intros H. unfold stamp_page, overlay_ops. rewrite H. cbn [content].
  by rewrite app_assoc, last_snoc.
Qed.

Lemma log_not_in_counting (n_files : Z) (files : list string) (msg : string) :
  forall i : Z, Log msg ∉ counting_events n_files i files.
Proof.
  induction files as [|f rest IH]; intros i H; cbn in H.
  - by apply not_elem_of_nil in H.
  - apply elem_of_cons in H as [H|H]; [discriminate | by eapply IH].
Qed.

Lemma log_not_in_merging (n_files : Z) (files : list string) (msg : string) :
  forall i : Z, Log msg ∉ merging_events n_files i files.
Proof.
  induction files as [|f rest IH]; intros i H; cbn in H.
  - by apply not_elem_of_nil in H.
  - apply elem_of_cons in H as [H|H]; [discriminate | by eapply IH].
Qed.

(** The only lines logged by a run are the TOC page count and one line
    per document. *)
Lemma run_events_log (files : list string) (docs : list Document) (msg : string) :
  Log msg ∈ run_events files docs ->
  (exists n : Z, msg = "TOC pages: " +:+ Py.str n)
  \/ (exists (name : string) (pg : Z), msg = "  " +:+ name +:+ " -> page " +:+ Py.str pg).
Proof.
  unfold run_events, toc_log. rewrite !elem_of_app, elem_of_cons.
  intros [H|[[H|H]|[H|H]]].
  - by apply log_not_in_counting in H.
  - injection H as ->. left. by eexists.
  - apply list_elem_of_fmap in H as ([name pg] & [= ->] & _). right. by eexists _, _.
  - by apply log_not_in_merging in H.
  - apply list_elem_of_singleton in H. discriminate.
Qed.

(** C10.  In a run that completes, the file written holds every assembled
    page (TOC pages first, then the sources) after the stamping loop went
    over it at its position: no page is exempt.  The TOC pages come first
    and are stamped like the others, so the first page of the output is
    TOC page 1 and its last string is the footer "Page 1 of {total}", with
    total = toc pages + the sum of the page counts. *)
Theorem toc_pages_are_stamped (env : Env) (folder output_path header_text : string)
    (s : RunState) (files : list string) (docs : list Document) :
  _list_pdfs_in_folder env folder = files ->
  files <> [] ->
  Forall2 (readable env) files docs ->
  write_error env output_path = None ->
  exists (res : MergeResult) (s' : RunState) (written : PdfWriter),
    merge_pdfs_with_toc env folder output_path header_text s = (ok res, s')
    /\ disk s' !! output_path = Some written
    /\ 1 <= res_toc_pages res
    /\ res_total_pages res = res_toc_pages res + sumZ (res_page_counts res)
    /\ Z.of_nat (length (w_pages written)) = res_total_pages res
    /\ (forall (i : nat) (p : Page),
          assembled_pages files docs !! i = Some p ->
          w_pages written !! i
          = Some (stamp_page header_text (res_total_pages res) (Z.of_nat i) p))
    /\ (forall i : nat,
          Z.of_nat i < res_toc_pages res ->
          exists toc_ops : list DrawOp,
            assembled_pages files docs !! i = Some (mkPage 612 792 toc_ops false)
            /\ w_pages written !! i
               = Some (mkPage 612 792
                         (toc_ops ++ overlay_ops 612 792 header_text (Z.of_nat i + 1)
                                       (res_total_pages res))
                         false))
    /\ (exists p0 : Page,
          w_pages written !! 0%nat = Some p0
          /\ head (content p0) = Some (DrawString "Helvetica" 16 54 738 "Table of Contents")
          /\ last (content p0)
             = Some (DrawRightString "Helvetica" 9 576 24
                       ("Page 1 of " +:+ Py.str (res_total_pages res)))).
Proof.
  intros Hlist Hne Hread Hwrite.
  pose proof (merge_success env folder output_path header_text s files docs
                Hlist Hne Hread Hwrite) as Hrun.
  cbv zeta in Hrun.
  set (n := toc_page_count 45 (placeholder_entries files)) in *.
  set (total := Z.of_nat (length (assembled_pages files docs))) in *.
  assert (Hn : 1 <= n) by apply toc_page_count_pos.
  assert (Hstamp : forall (i : nat) (p : Page),
            assembled_pages files docs !! i = Some p ->
            stamped header_text total 0 (assembled_pages files docs) !! i
            = Some (stamp_page header_text total (Z.of_nat i) p)).
  { intros i p Hp. rewrite stamped_lookup, Hp. cbn. by rewrite Z.add_0_l. }
  assert (Htoc : forall i : nat,
            Z.of_nat i < n ->
            exists toc_ops : list DrawOp,
              assembled_pages files docs !! i = Some (mkPage 612 792 toc_ops false)
              /\ head toc_ops = Some (DrawString "Helvetica" 16 54 738 "Table of Contents")
              /\ stamped header_text total 0 (assembled_pages files docs) !! i
                 = Some (mkPage 612 792
                           (toc_ops ++ overlay_ops 612 792 header_text (Z.of_nat i + 1) total)
                           false)).
  { intros i Hi. destruct (assembled_pages_toc files docs i Hi) as (ops & Hops & Hhead).
    exists ops. split; [done|]. split; [done|]. by rewrite (Hstamp _ _ Hops). }
  eexists _, _, _. split; [exact Hrun|].
  cbn [disk res_toc_pages res_total_pages res_page_counts w_pages].
  split; [by rewrite lookup_insert_eq|]. cbn [w_pages].
  split; [exact Hn|].
  split; [apply length_assembled_pages|].
  split; [by rewrite length_stamped|].
  split; [exact Hstamp|]. split.
  - intros i Hi. destruct (Htoc i Hi) as (ops & ? & _ & ?). by exists ops.
  - destruct (Htoc 0%nat ltac:(lia)) as (ops & _ & Hhead & Hp0).
    eexists. split; [exact Hp0|]. cbn [content]. split.
    + destruct ops; [discriminate|]. exact Hhead.
    + unfold overlay_ops. by rewrite app_assoc, last_snoc.
Qed.

Lemma toc_pages_are_stamped_witness :
  _list_pdfs_in_folder Examples.env_three "/d" = ["/d/A.PDF"; "/d/b.pdf"; "/d/c.pdf"]
  /\ ["/d/A.PDF"; "/d/b.pdf"; "/d/c.pdf"] <> []
  /\ Forall2 (readable Examples.env_three) ["/d/A.PDF"; "/d/b.pdf"; "/d/c.pdf"]
       Examples.docs_three
  /\ write_error Examples.env_three "/out.pdf" = None
  /\ exists (res : MergeResult) (s' : RunState) (written : PdfWriter),
       merge_pdfs_with_toc Examples.env_three "/d" "/out.pdf" "hdr" (initial_state ∅)
       = (ok res, s')
       /\ disk s' !! "/out.pdf" = Some written
       /\ Z.of_nat (length (w_pages written)) = res_total_pages res
       /\ exists p0 : Page,
            w_pages written !! 0%nat = Some p0
            /\ head (content p0) = Some (DrawString "Helvetica" 16 54 738 "Table of Contents")
            /\ last (content p0)
               = Some (DrawRightString "Helvetica" 9 576 24
                         ("Page 1 of " +:+ Py.str (res_total_pages res))).
Proof.
  assert (H1 : _list_pdfs_in_folder Examples.env_three "/d"
               = ["/d/A.PDF"; "/d/b.pdf"; "/d/c.pdf"]) by reflexivity.
  assert (H2 : ["/d/A.PDF"; "/d/b.pdf"; "/d/c.pdf"] <> []) by discriminate.
  assert (H3 : Forall2 (readable Examples.env_three) ["/d/A.PDF"; "/d/b.pdf"; "/d/c.pdf"]
                 Examples.docs_three) by (repeat constructor).
  assert (H4 : write_error Examples.env_three "/out.pdf" = None) by reflexivity.
  split; [exact H1|]. split; [exact H2|]. split; [exact H3|]. split; [exact H4|].
  destruct (toc_pages_are_stamped Examples.env_three "/d" "/out.pdf" "hdr"
              (initial_state ∅) _ Examples.docs_three H1 H2 H3 H4)
    as (res & s' & written & Hrun & Hdisk & _ & _ & Hlen & _ & _ & Hfirst).
  exists res, s', written. repeat split; assumption.
Defined.

(** C7 (amended).  Stamping does not look at the page geometry.  In a run
    that completes, a page of zero width or height is stamped like any
    other page, with an overlay of its own (degenerate) size; a page is
    left unstamped only when merge_page raises for it, and then silently:
    the only lines logged by the run are the TOC page count and one line
    per document.  Every other page is still stamped and the output is
    written. *)
Theorem stamping_ignores_geometry (env : Env) (folder output_path header_text : string)
    (s : RunState) (files : list string) (docs : list Document) :
  _list_pdfs_in_folder env folder = files ->
  files <> [] ->
  Forall2 (readable env) files docs ->
  write_error env output_path = None ->
  exists (res : MergeResult) (s' : RunState) (written : PdfWriter) (evs : list Event),
    merge_pdfs_with_toc env folder output_path header_text s = (ok res, s')
    /\ disk s' !! output_path = Some written
    /\ length (w_pages written) = length (assembled_pages files docs)
    /\ events s' = (events s ++ evs)%list
    /\ (forall msg : string,
          Log msg ∈ evs ->
          (exists n : Z, msg = "TOC pages: " +:+ Py.str n)
          \/ (exists (name : string) (pg : Z),
                msg = "  " +:+ name +:+ " -> page " +:+ Py.str pg))
    /\ (forall (i : nat) (p : Page),
          assembled_pages files docs !! i = Some p ->
          w_pages written !! i
          = Some (if merge_raises p then p
                  else mkPage (mediabox_width p) (mediabox_height p)
                         (content p
                          ++ overlay_ops (mediabox_width p) (mediabox_height p) header_text
                               (Z.of_nat i + 1) (res_total_pages res))
                         false))
    /\ (forall (i : nat) (p : Page),
          assembled_pages files docs !! i = Some p ->
          mediabox_width p = 0 \/ mediabox_height p = 0 ->
          merge_raises p = false ->
          exists p' : Page,
            w_pages written !! i = Some p'
            /\ last (content p')
               = Some (DrawRightString "Helvetica" 9 (mediabox_width p - 36) 24
                         (footer_text (Z.of_nat i + 1) (res_total_pages res)))).
Proof.
  intros Hlist Hne Hread Hwrite.
  pose proof (merge_success env folder output_path header_text s files docs
                Hlist Hne Hread Hwrite) as Hrun.
  cbv zeta in Hrun.
  set (total := Z.of_nat (length (assembled_pages files docs))) in *.
  assert (Hstamp : forall (i : nat) (p : Page),
            assembled_pages files docs !! i = Some p ->
            stamped header_text total 0 (assembled_pages files docs) !! i
            = Some (stamp_page header_text total (Z.of_nat i) p)).
  { intros i p Hp. rewrite stamped_lookup, Hp. cbn. by rewrite Z.add_0_l. }
  eexists _, _, _, (run_events files docs). split; [exact Hrun|].
  cbn [disk events res_total_pages].
  split; [by rewrite lookup_insert_eq|]. cbn [w_pages].
  split; [apply length_stamped|]. split; [reflexivity|].
  split; [apply run_events_log|]. split.
  - intros i p Hp. rewrite (Hstamp _ _ Hp). unfold stamp_page.
    by destruct (merge_raises p) eqn:E.
  - intros i p Hp _ Hmerge. eexists. split; [exact (Hstamp _ _ Hp)|].
    by apply stamp_page_footer.
Qed.

Lemma stamping_ignores_geometry_witness :
  _list_pdfs_in_folder Examples.env_degenerate "/d" = ["/d/a.pdf"]
  /\ ["/d/a.pdf"] <> []
  /\ Forall2 (readable Examples.env_degenerate) ["/d/a.pdf"] [[mkPage 0 792 [] false]]
  /\ write_error Examples.env_degenerate "/out.pdf" = None
  /\ exists (res : MergeResult) (s' : RunState) (written : PdfWriter) (evs : list Event),
       merge_pdfs_with_toc Examples.env_degenerate "/d" "/out.pdf" "" (initial_state ∅)
       = (ok res, s')
       /\ disk s' !! "/out.pdf" = Some written
       /\ events s' = evs
       /\ (forall msg : string,
             Log msg ∈ evs ->
             (exists n : Z, msg = "TOC pages: " +:+ Py.str n)
             \/ (exists (name : string) (pg : Z),
                   msg = "  " +:+ name +:+ " -> page " +:+ Py.str pg)).
Proof.
  assert (H1 : _list_pdfs_in_folder Examples.env_degenerate "/d" = ["/d/a.pdf"])
    by reflexivity.
  assert (H2 : ["/d/a.pdf"] <> []) by discriminate.
  assert (H3 : Forall2 (readable Examples.env_degenerate) ["/d/a.pdf"]
                 [[mkPage 0 792 [] false]]) by (repeat constructor).
  assert (H4 : write_error Examples.env_degenerate "/out.pdf" = None) by reflexivity.
  split; [exact H1|]. split; [exact H2|]. split; [exact H3|]. split; [exact H4|].
  destruct (stamping_ignores_geometry Examples.env_degenerate "/d" "/out.pdf" ""
              (initial_state ∅) _ _ H1 H2 H3 H4)
    as (res & s' & written & evs & Hrun & Hdisk & _ & Hevs & Hlog & _).
  exists res, s', written, evs. repeat split; assumption.
Defined.

(** C7, as stated, fails: the zero-width page of [a.pdf] is not skipped
    (the footer is merged into it) and the run records no warning. *)
Lemma degenerate_page_stamped_without_warning :
  events (snd (merge_pdfs_with_toc Examples.env_degenerate "/d" "/out.pdf" ""
                 (initial_state ∅)))
  = [Progress 1 1 "Counting pages: a.pdf"; Log "TOC pages: 1";
     Log "  a.pdf -> page 2"; Progress 1 1 "Merging: a.pdf";
     Progress 1 1 "Stamping header/footer..."]
  /\ (fun w => w_pages w !! 1%nat)
       <$> disk (snd (merge_pdfs_with_toc Examples.env_degenerate "/d" "/out.pdf" ""
                        (initial_state ∅))) !! "/out.pdf"
     = Some (Some (mkPage 0 792
                     [DrawRightString "Helvetica" 9 (-36) 24 "Page 2 of 2"] false))
  /\ mkPage 0 792 [DrawRightString "Helvetica" 9 (-36) 24 "Page 2 of 2"] false
     <> mkPage 0 792 [] false.
Proof.
  split; [vm_compute; reflexivity|]. split; [vm_compute; reflexivity|]. discriminate.
Qed.

(** ** The TOC is a function of what it shows *)

Lemma entry_ops_display (g : TocGeometry) (f : string * Z) (y : Z) (e : TocEntry) :
  entry_ops g f y e
  = ([DrawString (fst f) (snd f) (left_margin g) y (display_name (fst e))]
     ++ (if page_w g - left_margin g - 40 >? left_margin g + 320
         then [DrawString (fst f) (snd f) (left_margin g + 320) y
                 (Py.repeat_char "."%char 60)]
         else [])
     ++ [DrawRightString (fst f) (snd f) (page_w g - left_margin g) y (Py.str (snd e))])%list.
Proof. reflexivity. Qed.

Lemma entry_ops_shown (g : TocGeometry) (f : string * Z) (y : Z) (e1 e2 : TocEntry) :
  shown_entry e1 = shown_entry e2 -> entry_ops g f y e1 = entry_ops g f y e2.
Proof.
  unfold shown_entry. intros [= Hname Hpg].
  by rewrite !entry_ops_display, Hname, Hpg.
Qed.

Lemma entries_ops_shown (g : TocGeometry) (f : string * Z) (es1 : list TocEntry) :
  forall (es2 : list TocEntry) (y : Z),
    shown_entry <$> es1 = shown_entry <$> es2 ->
    entries_ops g f y es1 = entries_ops g f y es2.
Proof.
  induction es1 as [|e1 es1 IH]; intros [|e2 es2] y H; try done.
  rewrite !fmap_cons in H. injection H as Hname Hpg Hes.
  assert (He : shown_entry e1 = shown_entry e2) by (unfold shown_entry; congruence).
  cbn [entries_ops]. by rewrite (entry_ops_shown g f y e1 e2 He), (IH es2 _ Hes).
Qed.

Lemma page_entries_shown (cap : Z) (es1 es2 : list TocEntry) (i : Z) :
  shown_entry <$> es1 = shown_entry <$> es2 ->
  shown_entry <$> page_entries cap es1 i = shown_entry <$> page_entries cap es2 i.
Proof.
  intros H. assert (Hlen : length es1 = length es2).
  { by rewrite <- (length_fmap shown_entry es1), H, length_fmap. }
  unfold page_entries, Py.slice. by rewrite Hlen, !fmap_take, !fmap_drop, H.
Qed.

Lemma toc_document_shown (g : TocGeometry) (cap n : Z) (es1 es2 : list TocEntry) :
  shown_entry <$> es1 = shown_entry <$> es2 ->
  toc_document g cap es1 n = toc_document g cap es2 n.
Proof.
  intros H. unfold toc_document. apply list_fmap_ext. intros _ i _.
  unfold page_ops. do 2 f_equal. apply entries_ops_shown. by apply page_entries_shown.
Qed.

(** C5 (amended).  For a fixed geometry, the pages rendered by the TOC
    builder and their number are a function of the entry sequence: of its
    length and of the shown name and printed page number of each entry.
    Two calls on entry lists that show the same (in particular on the same
    list) return the same page count and bytes that read back as the same
    pages.  The bytes themselves carry the stamp the PDF library gives
    each saved file, so the two calls return identical bytes exactly when
    they are stamped identically. *)
Theorem toc_layout_depends_on_shown_entries (g : TocGeometry)
    (entries1 entries2 : list TocEntry) (stamp1 stamp2 : SaveStamp) :
  line_h g <> 0 ->
  shown_entry <$> entries1 = shown_entry <$> entries2 ->
  exists (b1 b2 : PdfBytes) (n : Z),
    _build_toc_pdf_bytes_at stamp1 g entries1 = ok (b1, n)
    /\ _build_toc_pdf_bytes_at stamp2 g entries2 = ok (b2, n)
    /\ read_bytes b1 = read_bytes b2
    /\ Z.of_nat (length (read_bytes b1)) = n
    /\ bytes_stamp b1 = stamp1
    /\ bytes_stamp b2 = stamp2
    /\ (b1 = b2 <-> stamp1 = stamp2).
Proof.
  intros Hline Hshown.
  pose proof (lines_per_page_value g Hline) as Hcap. set (cap := Z.max 1 _) in Hcap.
  assert (Hlen : length entries1 = length entries2).
  { by rewrite <- (length_fmap shown_entry entries1), Hshown, length_fmap. }
  assert (Hn : toc_page_count cap entries1 = toc_page_count cap entries2)
    by (by apply toc_page_count_length).
  assert (Hdoc : toc_document g cap entries1 (toc_page_count cap entries1)
                 = toc_document g cap entries2 (toc_page_count cap entries2)).
  { rewrite Hn. by apply toc_document_shown. }
  unfold _build_toc_pdf_bytes_at.
  rewrite (build_toc_spec g entries1 cap Hcap), (build_toc_spec g entries2 cap Hcap).
  cbn [rbind fst snd]. rewrite <- Hdoc, <- Hn.
  eexists _, _, _. split; [reflexivity|]. split; [reflexivity|].
  cbn [read_bytes bytes_pages bytes_stamp].
  split; [reflexivity|]. split.
  { rewrite length_toc_document. pose proof (toc_page_count_pos cap entries1). lia. }
  split; [reflexivity|]. split; [reflexivity|].
  split; [by intros [= ->] | by intros ->].
Qed.

Lemma toc_layout_depends_on_shown_entries_witness :
  line_h default_geometry <> 0
  /\ shown_entry <$> [("a.pdf", 2); ("b.pdf", 4)] = shown_entry <$> [("a.pdf", 2); ("b.pdf", 4)]
  /\ exists (b1 b2 : PdfBytes) (n : Z),
       _build_toc_pdf_bytes_at StampExamples.first_call default_geometry
         [("a.pdf", 2); ("b.pdf", 4)] = ok (b1, n)
       /\ _build_toc_pdf_bytes_at StampExamples.second_call default_geometry
            [("a.pdf", 2); ("b.pdf", 4)] = ok (b2, n)
       /\ read_bytes b1 = read_bytes b2.
Proof.
  assert (H1 : line_h default_geometry <> 0) by (vm_compute; discriminate).
  assert (H2 : shown_entry <$> [("a.pdf", 2); ("b.pdf", 4)]
               = shown_entry <$> [("a.pdf", 2); ("b.pdf", 4)]) by reflexivity.
  split; [exact H1|]. split; [exact H2|].
  destruct (toc_layout_depends_on_shown_entries default_geometry
              [("a.pdf", 2); ("b.pdf", 4)] [("a.pdf", 2); ("b.pdf", 4)]
              StampExamples.first_call StampExamples.second_call H1 H2)
    as (b1 & b2 & n & Hb1 & Hb2 & Hread & _).
  exists b1, b2, n. split; [exact Hb1|]. split; [exact Hb2|]. exact Hread.
Defined.

(** C5, as stated, fails: two calls on the same entries, one second
    apart, return different bytes. *)
Lemma toc_bytes_differ_between_calls :
  _build_toc_pdf_bytes_at StampExamples.first_call default_geometry [("a.pdf", 2)]
  <> _build_toc_pdf_bytes_at StampExamples.second_call default_geometry [("a.pdf", 2)].
Proof.
  unfold _build_toc_pdf_bytes_at.
  rewrite (build_toc_spec default_geometry [("a.pdf", 2)] 45 lines_per_page_default).
  cbn [rbind fst snd]. intros H. injection H as H. discriminate H.
Qed.

(** * Further properties *)

(** ** The folder listing *)

Lemma insert_by_key_perm {A : Type} (key : A -> string) (x : A) (l : list A) :
  insert_by_key key x l ≡ₚ x :: l.
Proof.
  induction l as [|y r IH]; cbn [insert_by_key]; [done|].
  destruct (String.leb (key x) (key y)); [done|].
  rewrite IH. apply Permutation_swap.
Qed.

Lemma sort_by_key_perm {A : Type} (key : A -> string) (l : list A) :
  sort_by_key key l ≡ₚ l.
Proof.
  induction l as [|x r IH]; [done|].
  unfold sort_by_key in *. cbn [foldr]. by rewrite insert_by_key_perm, IH.
Qed.

Lemma insert_by_key_hdrel {A : Type} (key : A -> string) (a x : A) (l : list A) :
  Is_true (String.leb (key a) (key x)) ->
  HdRel (fun p q => Is_true (String.leb (key p) (key q))) a l ->
  HdRel (fun p q => Is_true (String.leb (key p) (key q))) a (insert_by_key key x l).
Proof.
  intros Hax Hal. destruct l as [|y r]; cbn [insert_by_key]; [by constructor|].
  destruct (String.leb (key x) (key y)); constructor; [done|].
  by inversion Hal.
Qed.

Lemma insert_by_key_sorted {A : Type} (key : A -> string) (x : A) (l : list A) :
  Sorted (fun p q => Is_true (String.leb (key p) (key q))) l ->
  Sorted (fun p q => Is_true (String.leb (key p) (key q))) (insert_by_key key x l).
Proof.
  induction 1 as [|y r Hr IH Hy]; cbn [insert_by_key].
  - by repeat constructor.
  - destruct (String.leb (key x) (key y)) eqn:E.
    + constructor; [by constructor|]. constructor. by rewrite E.
    + constructor; [exact IH|]. apply insert_by_key_hdrel; [|exact Hy].
      destruct (String.leb_total (key x) (key y)) as [H|H]; [congruence|].
      by rewrite H.
Qed.

Lemma sort_by_key_sorted {A : Type} (key : A -> string) (l : list A) :
  Sorted (fun p q => Is_true (String.leb (key p) (key q))) (sort_by_key key l).
Proof.
  induction l as [|x r IH]; [constructor|].
  unfold sort_by_key in *. cbn [foldr]. by apply insert_by_key_sorted.
Qed.

(** X1.  The listing is in ascending order of the lower-cased base names
    and holds, up to that reordering, exactly the paths [join(folder, n)]
    of the listed names [n] that end in .pdf and are files. *)
Theorem list_pdfs_sorted_permutation (env : Env) (folder : string) (names : list string) :
  os_listdir env folder = Some names ->
  Sorted listing_le (_list_pdfs_in_folder env folder)
  /\ _list_pdfs_in_folder env folder
     ≡ₚ filter (fun f => Is_true (os_isfile env f))
          (fmap (OsPath.join folder) (filter (fun n => Is_true (_is_pdf n)) names)).
Proof.
  intros H. unfold _list_pdfs_in_folder. rewrite H. split.
  - apply (sort_by_key_sorted (fun p => Py.lower (OsPath.basename p))).
  - apply sort_by_key_perm.
Qed.

Lemma list_pdfs_sorted_permutation_witness :
  os_listdir Examples.env_three "/d" = Some ["b.pdf"; "A.PDF"; "notes.txt"; "c.pdf"]
  /\ Sorted listing_le (_list_pdfs_in_folder Examples.env_three "/d").
Proof.
  split; [reflexivity|].
  exact (proj1 (list_pdfs_sorted_permutation Examples.env_three "/d" _ eq_refl)).
Defined.

(** X2.  A path is listed exactly when it is [join(folder, n)] for a name
    [n] returned by [os.listdir] that ends in .pdf (in any letter case)
    and is a file; when [os.listdir] raises, nothing is listed. *)
Theorem list_pdfs_membership (env : Env) (folder f : string) :
  f ∈ _list_pdfs_in_folder env folder
  <-> exists (names : list string) (n : string),
        os_listdir env folder = Some names
        /\ n ∈ names /\ _is_pdf n = true
        /\ f = OsPath.join folder n /\ os_isfile env f = true.
Proof.
  unfold _list_pdfs_in_folder.
  destruct (os_listdir env folder) as [names|] eqn:E.
  - rewrite sort_by_key_perm, list_elem_of_filter, list_elem_of_fmap. split.
    + intros [Hfile (n & -> & Hn)]. apply list_elem_of_filter in Hn as [Hpdf Hn].
      exists names, n. repeat split; try done; by apply Is_true_true.
    + intros (names' & n & [= <-] & Hn & Hpdf & -> & Hfile).
      split; [by apply Is_true_true|]. exists n. split; [done|].
      apply list_elem_of_filter. split; [by apply Is_true_true | done].
  - split; [by intros H%not_elem_of_nil|]. by intros (names & n & [=] & _).
Qed.

(** ** Strings *)

Lemma string_app_cons (c : ascii) (a b : string) :
  String c a +:+ b = String c (a +:+ b).
Proof. reflexivity. Qed.

Lemma string_length_app (a b : string) :
  String.length (a +:+ b) = (String.length a + String.length b)%nat.
Proof.
  induction a as [|c a IH]; [done|].
  rewrite string_app_cons. cbn [String.length]. by rewrite IH.
Qed.

Lemma string_app_nil_r (a : string) : a +:+ "" = a.
Proof. induction a as [|c a IH]; [done|]. by rewrite string_app_cons, IH. Qed.

Lemma string_app_assoc (a b c : string) : (a +:+ b) +:+ c = a +:+ (b +:+ c).
Proof. induction a as [|x a IH]; [done|]. by rewrite !string_app_cons, IH. Qed.

Lemma substring_0_0 (s : string) : substring 0 0 s = "".
Proof. by destruct s. Qed.

Lemma substring_all (s : string) : substring 0 (String.length s) s = s.
Proof. induction s as [|c s IH]; cbn; [done|]. by rewrite IH. Qed.

Lemma substring_app_prefix (a b : string) :
  substring 0 (String.length a) (a +:+ b) = a.
Proof.
  induction a as [|c a IH]; [apply substring_0_0|].
  rewrite string_app_cons. cbn [String.length substring]. by rewrite IH.
Qed.

Lemma substring_app_skip (a b : string) (n : nat) :
  substring (String.length a) n (a +:+ b) = substring 0 n b.
Proof.
  induction a as [|c a IH]; [done|].
  rewrite string_app_cons. cbn [String.length substring]. exact IH.
Qed.

Lemma substring_split (s : string) : forall k : nat,
  (k <= String.length s)%nat ->
  s = substring 0 k s +:+ substring k (String.length s - k) s.
Proof.
  induction s as [|c s IH]; intros k Hk; cbn [String.length] in Hk.
  - by replace k with 0%nat by lia.
  - destruct k as [|k]; cbn [String.length substring Nat.sub].
    + by rewrite substring_all.
    + rewrite string_app_cons. rewrite <- IH by lia. done.
Qed.

Lemma length_substring_0 (s : string) : forall n : nat,
  String.length (substring 0 n s) = Nat.min n (String.length s).
Proof.
  induction s as [|c s IH]; intros [|n]; cbn; try done. by rewrite IH.
Qed.

Lemma lower_app (a b : string) : Py.lower (a +:+ b) = Py.lower a +:+ Py.lower b.
Proof.
  induction a as [|c a IH]; [done|].
  rewrite string_app_cons. cbn [Py.lower]. by rewrite string_app_cons, IH.
Qed.

Lemma lower_length (s : string) : String.length (Py.lower s) = String.length s.
Proof. induction s as [|c s IH]; cbn; [done|]. by rewrite IH. Qed.

Lemma lower_substring (s : string) : forall i n : nat,
  Py.lower (substring i n s) = substring i n (Py.lower s).
Proof.
  induction s as [|c s IH]; intros i n; cbn.
  - by destruct i, n.
  - destruct i as [|i]; [destruct n as [|n]; cbn; [done|by rewrite IH] | apply IH].
Qed.

Lemma endswith_app (a b : string) : Py.endswith (a +:+ b) b = true.
Proof.
  unfold Py.endswith. rewrite string_length_app.
  replace (String.length a + String.length b - String.length b)%nat
    with (String.length a) by lia.
  rewrite substring_app_skip, substring_all, String.eqb_refl.
  rewrite andb_true_r. apply Nat.leb_le. lia.
Qed.

Lemma endswith_split (s suffix : string) :
  Py.endswith s suffix = true ->
  s = substring 0 (String.length s - String.length suffix) s +:+ suffix.
Proof.
  unfold Py.endswith. intros [Hle Heq]%andb_true_iff.
  apply Nat.leb_le in Hle. apply String.eqb_eq in Heq.
  pose proof (substring_split s (String.length s - String.length suffix) ltac:(lia)) as Hs.
  replace (String.length s - (String.length s - String.length suffix))%nat
    with (String.length suffix) in Hs by lia.
  by rewrite Heq in Hs.
Qed.

Lemma is_pdf_of_extension (stem ext : string) :
  Py.lower ext = ".pdf" -> _is_pdf (stem +:+ ext) = true.
Proof.
  intros Hext. unfold _is_pdf. rewrite lower_app, Hext. apply endswith_app.
Qed.

(** X3.  [_is_pdf] looks at the last four characters only and ignores
    their letter case: a name is accepted exactly when it is some stem
    followed by an extension whose lower-case form is ".pdf". *)
Theorem is_pdf_extension (name : string) :
  _is_pdf name = true
  <-> exists stem ext : string, name = stem +:+ ext /\ Py.lower ext = ".pdf".
Proof.
  unfold _is_pdf. split.
  - intros H. pose proof H as [Hle Heq]%andb_true_iff.
    apply Nat.leb_le in Hle. apply String.eqb_eq in Heq.
    rewrite lower_length in Hle, Heq. cbn [String.length] in Hle, Heq.
    exists (substring 0 (String.length name - 4) name),
           (substring (String.length name - 4) 4 name).
    split.
    + pose proof (substring_split name (String.length name - 4) ltac:(lia)) as Hs.
      by replace (String.length name - (String.length name - 4))%nat with 4%nat in Hs by lia.
    + by rewrite lower_substring.
  - intros (stem & ext & -> & Hext). by apply is_pdf_of_extension.
Qed.

(** ** Dropped paths and the default output path *)

Lemma rstrip_snoc (s : string) (c : ascii) :
  Py.is_space c = false ->
  Py.rstrip (s +:+ String c "") = s +:+ String c "".
Proof.
  intros Hc. induction s as [|a s IH].
  - change ("" +:+ String c "") with (String c ""). cbn [Py.rstrip]. by rewrite Hc.
  - rewrite string_app_cons. cbn [Py.rstrip]. rewrite IH.
    destruct s; reflexivity.
Qed.

(** X4.  A path that Tk wrapped in braces (as it does for paths holding
    blanks) comes back without them, whatever it contains:
    [_normalize_drop_path("{" + p + "}") = p]. *)
Theorem normalize_drop_path_braces (p : string) :
  _normalize_drop_path ("{" +:+ p +:+ "}") = p.
Proof.
  unfold _normalize_drop_path, Py.strip.
  change ("{" +:+ p +:+ "}") with (String "{" (p +:+ "}")).
  cbn [Py.lstrip]. change (Py.is_space "{") with false. cbv iota.
  assert (E : Py.rstrip (String "{" (p +:+ "}")) = String "{" (p +:+ "}")).
  { change (String "{" (p +:+ "}")) with (String "{" p +:+ String "}" "").
    by apply rstrip_snoc. }
  rewrite E.
  replace (String.eqb (String "{" (p +:+ "}")) "") with false by reflexivity.
  assert (Hsw : PyMore.startswith (String "{" (p +:+ "}")) "{" = true).
  { unfold PyMore.startswith. cbn [String.length substring].
    by rewrite substring_0_0. }
  assert (Hew : Py.endswith (String "{" (p +:+ "}")) "}" = true).
  { change (String "{" (p +:+ "}")) with (String "{" p +:+ "}"). apply endswith_app. }
  rewrite Hsw, Hew. cbn [andb].
  unfold PyMore.strip_ends. cbn [String.length substring].
  rewrite string_length_app. cbn [String.length].
  replace (S (String.length p + 1) - 2)%nat with (String.length p) by lia.
  apply substring_app_prefix.
Qed.

Lemma no_sep_replace (s : string) :
  no_sep (PyMore.replace_char OsPath.sep "_" s) = true.
Proof.
  induction s as [|a s IH]; [done|]. cbn [PyMore.replace_char no_sep].
  rewrite IH, andb_true_r. by destruct (Ascii.eqb a OsPath.sep) eqn:E; [|rewrite E].
Qed.

Lemma no_sep_app (a b : string) : no_sep (a +:+ b) = (no_sep a && no_sep b)%bool.
Proof.
  induction a as [|c a IH]; [done|].
  rewrite string_app_cons. cbn [no_sep]. by rewrite IH, andb_assoc.
Qed.

Lemma after_last_sep_no_sep (b : string) : forall tail : string,
  no_sep b = true -> OsPath.after_last_sep tail b = tail.
Proof.
  induction b as [|c b IH]; intros tail H; [done|].
  cbn [no_sep] in H. apply andb_true_iff in H as [Hc Hb].
  cbn [OsPath.after_last_sep]. apply negb_true_iff in Hc. rewrite Hc. by apply IH.
Qed.

Lemma after_last_sep_app_sep (a b : string) : forall tail : string,
  no_sep b = true ->
  OsPath.after_last_sep tail (a +:+ String OsPath.sep b) = b.
Proof.
  induction a as [|c a IH]; intros tail H.
  - change ("" +:+ String OsPath.sep b) with (String OsPath.sep b).
    cbn [OsPath.after_last_sep]. rewrite Ascii.eqb_refl. by apply after_last_sep_no_sep.
  - rewrite string_app_cons. cbn [OsPath.after_last_sep].
    destruct (Ascii.eqb c OsPath.sep); by apply IH.
Qed.

(** The base name of a path joined from a directory and a non-empty,
    separator-free name is that name. *)
Lemma basename_join (a b : string) :
  no_sep b = true -> b <> "" ->
  OsPath.basename (OsPath.join a b) = b
  /\ exists dir : string, OsPath.join a b = dir +:+ b.
Proof.
  intros Hb Hne. destruct b as [|c b']; [done|].
  pose proof Hb as Hb0. cbn [no_sep] in Hb0.
  apply andb_true_iff in Hb0 as [Hc _]. apply negb_true_iff in Hc.
  unfold OsPath.join. rewrite Hc. unfold OsPath.basename.
  destruct (String.eqb a "") eqn:Ea.
  - apply String.eqb_eq in Ea as ->. cbn [orb].
    change ("" +:+ String c b') with (String c b').
    split; [by apply after_last_sep_no_sep | by exists ""].
  - cbn [orb]. destruct (Py.endswith a "/") eqn:Eend.
    + split; [|by exists a].
      rewrite (endswith_split a "/" Eend), string_app_assoc.
      change ("/" +:+ String c b') with (String OsPath.sep (String c b')).
      by apply after_last_sep_app_sep.
    + change ("/" +:+ String c b') with (String OsPath.sep (String c b')).
      split; [by apply after_last_sep_app_sep|].
      exists (a +:+ "/"). by rewrite string_app_assoc.
Qed.

(** X5.  The default output path is always one that [on_run] accepts
    (non-empty, ending in .pdf) and that the folder listing would take
    for a PDF; its base name is the prefix, stripped, with every
    separator replaced by an underscore, followed by ".pdf" ("packed.pdf"
    for a blank prefix), so the file lies directly in the chosen parent
    directory. *)
Theorem default_output_accepted (abspath : string -> string) (folder prefix : string) :
  let out := _default_output_for_folder_prefix abspath folder prefix in
  let name :=
    PyMore.replace_char OsPath.sep "_" (PyMore.or_else (Py.strip prefix) "packed")
    +:+ ".pdf" in
  output_path_accepted out = true
  /\ _is_pdf out = true
  /\ OsPath.basename out = name
  /\ no_sep name = true
  /\ (Py.strip prefix = "" -> name = "packed.pdf").
Proof.
  intros out name.
  assert (Hname : no_sep name = true).
  { subst name. by rewrite no_sep_app, no_sep_replace. }
  assert (Hne : name <> "").
  { subst name. intros H. apply (f_equal String.length) in H.
    rewrite string_length_app in H. cbn in H. lia. }
  destruct (basename_join
              (PyMore.or_else
                 (os_path_dirname (PyMore.rstrip_char OsPath.sep (abspath folder)))
                 (abspath folder))
              name Hname Hne) as [Hbase [dir Hdir]].
  fold name in Hbase, Hdir.
  change (_default_output_for_folder_prefix abspath folder prefix)
    with (OsPath.join
            (PyMore.or_else
               (os_path_dirname (PyMore.rstrip_char OsPath.sep (abspath folder)))
               (abspath folder)) name) in out.
  assert (Hpdf : _is_pdf out = true).
  { subst out. rewrite Hdir. subst name. rewrite <- string_app_assoc.
    by apply is_pdf_of_extension. }
  split.
  { unfold output_path_accepted. unfold _is_pdf in Hpdf. rewrite Hpdf, andb_true_r.
    apply negb_true_iff, String.eqb_neq. subst out. rewrite Hdir.
    intros H. apply (f_equal String.length) in H.
    rewrite string_length_app in H. destruct name; [done|]. cbn in H. lia. }
  split; [exact Hpdf|]. split; [exact Hbase|]. split; [exact Hname|].
  intros Hblank. subst name. by rewrite Hblank.
Qed.

(** ** What the TOC shows *)

Lemma page_entries_take (cap : Z) (entries : list TocEntry) (i : Z) :
  0 <= cap -> 0 <= i ->
  page_entries cap entries i
  = take (Z.to_nat cap) (drop (Z.to_nat i * Z.to_nat cap) entries).
Proof.
  intros Hcap Hi. unfold page_entries, Py.slice. rewrite py_min_spec.
  replace (Z.to_nat (i * cap)) with (Z.to_nat i * Z.to_nat cap)%nat by nia.
  set (rest := drop (Z.to_nat i * Z.to_nat cap) entries).
  assert (Hrest : length rest = (length entries - Z.to_nat i * Z.to_nat cap)%nat)
    by (subst rest; apply length_drop).
  destruct (Z.le_gt_cases (Z.of_nat (length entries)) (i * cap + cap)) as [H|H].
  - rewrite Z.min_l by lia. rewrite !take_ge; [done| |]; rewrite Hrest; nia.
  - rewrite Z.min_r by lia. f_equal. lia.
Qed.

Lemma concat_page_entries (cap : Z) (entries : list TocEntry) (n : nat) :
  0 <= cap ->
  concat (page_entries cap entries <$> seqZ 0 (Z.of_nat n))
  = take (n * Z.to_nat cap) entries.
Proof.
  intros Hcap. induction n as [|n IH]; [done|].
  rewrite seqZ_S, fmap_app, concat_app, IH. cbn [fmap list_fmap concat].
  rewrite app_nil_r, page_entries_take by lia.
  rewrite Z.add_0_l, Nat2Z.id, take_take_drop. f_equal. lia.
Qed.

(** Every entry is on exactly one page, in order. *)
Lemma toc_pages_partition (cap : Z) (entries : list TocEntry) :
  1 <= cap ->
  concat (page_entries cap entries <$> seqZ 0 (toc_page_count cap entries)) = entries.
Proof.
  intros Hcap.
  pose proof (toc_page_count_pos cap entries) as Hpos.
  assert (Hcover : Z.of_nat (length entries) <= cap * toc_page_count cap entries).
  { unfold toc_page_count. rewrite py_max_spec.
    pose proof (round_up_div_bounds (Z.of_nat (length entries)) cap ltac:(lia)). nia. }
  rewrite <- (Z2Nat.id (toc_page_count cap entries)) at 1 by lia.
  rewrite concat_page_entries by lia. apply take_ge. nia.
Qed.

Lemma concat_fmap_pages {A B C : Type} (f : B -> C) (pe : A -> list B) (idxs : list A) :
  concat ((fun i => f <$> pe i) <$> idxs) = f <$> concat (pe <$> idxs).
Proof.
  induction idxs as [|i idxs IH]; [done|].
  rewrite !fmap_cons. cbn [concat]. by rewrite fmap_app, IH.
Qed.

Lemma right_texts_entries_ops (g : TocGeometry) (f : string * Z) (es : list TocEntry) :
  forall y : Z,
    omap (fun op => match op with
                    | DrawRightString _ _ _ _ t => Some t
                    | DrawString _ _ _ _ _ => None
                    end) (entries_ops g f y es)
    = (fun e => Py.str (snd e)) <$> es.
Proof.
  induction es as [|e es IH]; intros y; [done|].
  cbn [entries_ops]. rewrite omap_app, IH, fmap_cons. unfold entry_ops.
  by destruct (_ >? _).
Qed.

Lemma left_texts_entries_ops (g : TocGeometry) (f : string * Z) (es : list TocEntry) :
  forall y : Z,
    omap (fun op => match op with
                    | DrawString _ _ x' _ t =>
                        if x' =? left_margin g then Some t else None
                    | DrawRightString _ _ _ _ _ => None
                    end) (entries_ops g f y es)
    = (fun e => display_name (fst e)) <$> es.
Proof.
  induction es as [|e es IH]; intros y; [done|].
  cbn [entries_ops]. rewrite omap_app, IH, fmap_cons. unfold entry_ops.
  assert (E : (left_margin g + 320 =? left_margin g) = false) by (apply Z.eqb_neq; lia).
  destruct (_ >? _); cbn [app omap list_omap]; rewrite ?E, Z.eqb_refl; reflexivity.
Qed.

(** X6.  The rendered TOC lists every entry exactly once and in order:
    read page after page, its right-aligned strings are the page numbers
    of the entries ([str(pg)]), none missing, none repeated. *)
Theorem toc_lists_every_page_number (g : TocGeometry) (entries : list TocEntry) :
  line_h g <> 0 ->
  exists (doc : Document) (n : Z),
    _build_toc_pdf_bytes g entries = ok (doc, n)
    /\ concat (right_texts <$> doc) = (fun e => Py.str (snd e)) <$> entries.
Proof.
  intros Hline. pose proof (lines_per_page_value g Hline) as Hcap.
  set (cap := Z.max 1 _) in Hcap.
  eexists _, _. split; [by apply build_toc_spec|].
  unfold toc_document. rewrite <- list_fmap_compose.
  rewrite <- (toc_pages_partition cap entries) at 2 by lia.
  rewrite <- concat_fmap_pages. f_equal. apply list_fmap_ext. intros _ i _.
  unfold compose, right_texts, page_ops. cbn [content].
  rewrite omap_app. cbn [omap list_omap app]. apply right_texts_entries_ops.
Qed.

Lemma toc_lists_every_page_number_witness :
  line_h default_geometry <> 0
  /\ exists (doc : Document) (n : Z),
       _build_toc_pdf_bytes default_geometry [("a.pdf", 2); ("b.pdf", 4)] = ok (doc, n)
       /\ concat (right_texts <$> doc) = ["2"; "4"].
Proof.
  split; [vm_compute; discriminate|].
  apply (toc_lists_every_page_number default_geometry [("a.pdf", 2); ("b.pdf", 4)]).
  vm_compute. discriminate.
Defined.

Lemma display_name_length (name : string) :
  (String.length (display_name name) <= 95)%nat
  /\ ((String.length name <= 95)%nat -> display_name name = name)
  /\ ((95 < String.length name)%nat ->
      String.length (display_name name) = 95%nat
      /\ display_name name = substring 0 92 name +:+ "...").
Proof.
  unfold display_name, Py.len, Py.prefix_of.
  destruct (Z.leb_spec (Z.of_nat (String.length name)) 95) as [H|H].
  - split; [lia|]. split; [done|]. lia.
  - assert (E : String.length (substring 0 92 name +:+ "...") = 95%nat).
    { rewrite string_length_app, length_substring_0. cbn [String.length]. lia. }
    split; [lia|]. split; [lia|]. done.
Qed.

(** X7.  On every TOC page the strings drawn at the left margin are the
    title, the subtitle and then the names of the page's entries, in
    order over the pages; a name of at most 95 characters is shown as it
    is, a longer one as its first 92 characters followed by "...", so no
    shown name exceeds 95 characters. *)
Theorem toc_names_truncated (g : TocGeometry) (entries : list TocEntry) :
  line_h g <> 0 ->
  exists (doc : Document) (n : Z),
    _build_toc_pdf_bytes g entries = ok (doc, n)
    /\ concat ((fun p => drop 2 (texts_at (left_margin g) p)) <$> doc)
       = (fun e => display_name (fst e)) <$> entries
    /\ (forall (p : Page) (t : string),
          p ∈ doc -> t ∈ drop 2 (texts_at (left_margin g) p) ->
          (String.length t <= 95)%nat)
    /\ (forall name : string,
          ((String.length name <= 95)%nat -> display_name name = name)
          /\ ((95 < String.length name)%nat ->
              display_name name = substring 0 92 name +:+ "...")).
Proof.
  intros Hline. pose proof (lines_per_page_value g Hline) as Hcap.
  set (cap := Z.max 1 _) in Hcap.
  assert (Hpage : forall i : Z,
            drop 2 (texts_at (left_margin g)
                      (mkPage (page_w g) (page_h g) (page_ops g cap entries i) false))
            = (fun e => display_name (fst e)) <$> page_entries cap entries i).
  { intros i. unfold texts_at, page_ops. cbn [content].
    rewrite omap_app. cbn [omap list_omap app]. rewrite Z.eqb_refl. cbn [drop].
    apply left_texts_entries_ops. }
  eexists _, _. split; [by apply build_toc_spec|]. split; [|split].
  - unfold toc_document. rewrite <- list_fmap_compose.
    rewrite <- (toc_pages_partition cap entries) at 2 by lia.
    rewrite <- concat_fmap_pages. f_equal. apply list_fmap_ext. intros _ i _.
    apply Hpage.
  - intros p t Hp Ht. unfold toc_document in Hp.
    apply list_elem_of_fmap in Hp as (i & -> & _). rewrite Hpage in Ht.
    apply list_elem_of_fmap in Ht as (e & -> & _). apply display_name_length.
  - intros name. pose proof (display_name_length name) as (_ & H1 & H2).
    split; [exact H1|]. intros H. by apply H2.
Qed.

Lemma toc_names_truncated_witness :
  line_h default_geometry <> 0
  /\ exists (doc : Document) (n : Z),
       _build_toc_pdf_bytes default_geometry [("a.pdf", 2); ("b.pdf", 4)] = ok (doc, n)
       /\ concat ((fun p => drop 2 (texts_at (left_margin default_geometry) p)) <$> doc)
          = ["a.pdf"; "b.pdf"].
Proof.
  split; [vm_compute; discriminate|].
  destruct (toc_names_truncated default_geometry [("a.pdf", 2); ("b.pdf", 4)])
    as (doc & n & Hdoc & Hnames & _); [vm_compute; discriminate|].
  exists doc, n. split; [exact Hdoc | exact Hnames].
Defined.

Lemma entries_ops_y (g : TocGeometry) (f : string * Z) (es : list TocEntry) :
  0 <= line_h g ->
  forall (y : Z) (op : DrawOp),
    op ∈ entries_ops g f y es ->
    y - (Z.of_nat (length es) - 1) * line_h g <= op_y op <= y.
Proof.
  intros Hlh. induction es as [|e es IH]; intros y op Hop; cbn [entries_ops] in Hop.
  - by apply not_elem_of_nil in Hop.
  - cbn [length]. apply elem_of_app in Hop as [Hop|Hop].
    + assert (op_y op = y) as ->; [|nia].
      unfold entry_ops in Hop.
      destruct (_ >? _); cbn [app] in Hop;
        repeat (apply elem_of_cons in Hop as [->|Hop]; [reflexivity|]);
        by apply not_elem_of_nil in Hop.
    + specialize (IH _ _ Hop). nia.
Qed.

(** X8.  When the line height is at least 3 points and at least one line
    fits under the header, nothing on a TOC page is drawn outside the
    vertical margins: every string sits between the bottom margin and the
    top margin line, however many entries there are. *)
Theorem toc_text_within_margins (g : TocGeometry) (entries : list TocEntry) :
  3 <= line_h g ->
  line_h g <= usable_h g - header_space g ->
  exists (doc : Document) (n : Z),
    _build_toc_pdf_bytes g entries = ok (doc, n)
    /\ forall (p : Page) (op : DrawOp),
         p ∈ doc -> op ∈ content p ->
         bottom_margin g <= op_y op <= page_h g - top_margin g.
Proof.
  intros Hlh Hfit.
  pose proof (lines_per_page_value g ltac:(lia)) as Hcap.
  set (cap := Z.max 1 _) in Hcap.
  assert (Hcap1 : 1 <= cap) by (subst cap; lia).
  assert (Hroom : cap * line_h g <= usable_h g - header_space g).
  { subst cap.
    pose proof (Z.mul_div_le (usable_h g - header_space g) (line_h g) ltac:(lia)).
    assert (1 <= (usable_h g - header_space g) / line_h g).
    { apply Z.div_le_lower_bound; lia. }
    rewrite Z.max_r by lia. lia. }
  eexists _, _. split; [by apply build_toc_spec|].
  intros p op Hp Hop. unfold toc_document in Hp.
  apply list_elem_of_fmap in Hp as (i & -> & Hi).
  apply list_elem_of_lookup in Hi as [k Hk]. apply lookup_seqZ in Hk as [-> _].
  cbn [content] in Hop. unfold page_ops in Hop.
  unfold usable_h, header_space, title_gap in *.
  cbn [app] in Hop.
  apply elem_of_cons in Hop as [->|Hop]; [cbn [op_y]; lia|].
  apply elem_of_cons in Hop as [->|Hop]; [cbn [op_y]; unfold title_gap; lia|].
  apply (entries_ops_y g _ _ ltac:(lia)) in Hop.
  pose proof (length_page_entries cap entries (0 + Z.of_nat k) Hcap1 ltac:(lia)) as Hlen.
  unfold title_gap in Hop. nia.
Qed.

Lemma toc_text_within_margins_witness :
  3 <= line_h default_geometry
  /\ line_h default_geometry <= usable_h default_geometry - header_space default_geometry
  /\ exists (doc : Document) (n : Z),
       _build_toc_pdf_bytes default_geometry [("a.pdf", 2); ("b.pdf", 4)] = ok (doc, n)
       /\ forall (p : Page) (op : DrawOp),
            p ∈ doc -> op ∈ content p ->
            bottom_margin default_geometry <= op_y op
            <= page_h default_geometry - top_margin default_geometry.
Proof.
  split; [vm_compute; discriminate|]. split; [vm_compute; discriminate|].
  apply (toc_text_within_margins default_geometry [("a.pdf", 2); ("b.pdf", 4)]);
    vm_compute; discriminate.
Defined.

(** ** Bookmarks and progress *)

Lemma outline_items_spec (env : Env) (starts : list Z) (files : list string) :
  (forall f : string, f ∈ files -> outline_raises env (_safe_basename f) = false) ->
  forall i : Z,
    1 <= i ->
    (Z.to_nat (i - 1) + length files <= length starts)%nat ->
    outline_items env i starts files
    = zip_with (fun f st => (_safe_basename f, st - 1)) files
        (drop (Z.to_nat (i - 1)) starts).
Proof.
  induction files as [|f files IH]; intros Hok i Hi Hlen; [done|].
  cbn [length] in Hlen. cbn [outline_items].
  rewrite (Hok f) by constructor.
  destruct (lookup_lt_is_Some_2 starts (Z.to_nat (i - 1)) ltac:(lia)) as [st Hst].
  rewrite Hst, (drop_S _ _ _ Hst). cbn [zip_with app]. f_equal.
  rewrite IH; [|intros g Hg; apply Hok; by constructor|lia|lia].
  do 2 f_equal. lia.
Qed.

Lemma concat_lookup_first {A : Type} (docs : list (list A)) :
  forall (i : nat) (p : A) (d : list A),
    docs !! i = Some (p :: d) ->
    concat docs !! length (concat (take i docs)) = Some p.
Proof.
  induction docs as [|d0 docs IH]; intros i p d H; [done|].
  destruct i as [|i]; cbn in H.
  - by injection H as ->.
  - cbn [take concat]. rewrite length_app, lookup_app_r by lia.
    replace (length d0 + length (concat (take i docs)) - length d0)%nat
      with (length (concat (take i docs))) by lia.
    by eapply IH.
Qed.

(** X9.  In a run that completes and in which no [add_outline_item] call
    raises, the outline has one item per document, in listing order,
    titled with the base name and pointing at the 0-based page index
    [start_page - 1]; for a document with at least one page that index is
    the position, in the written file, of the document's own first page. *)
Theorem bookmarks_point_to_first_pages (env : Env)
    (folder output_path header_text : string) (s : RunState)
    (files : list string) (docs : list Document) :
  _list_pdfs_in_folder env folder = files ->
  files <> [] ->
  Forall2 (readable env) files docs ->
  write_error env output_path = None ->
  (forall f : string, f ∈ files -> outline_raises env (_safe_basename f) = false) ->
  exists (res : MergeResult) (s' : RunState) (written : PdfWriter),
    merge_pdfs_with_toc env folder output_path header_text s = (ok res, s')
    /\ disk s' !! output_path = Some written
    /\ w_outline written
       = zip_with (fun f st => (_safe_basename f, st - 1)) files (res_start_pages res)
    /\ forall (i : nat) (st : Z) (p : Page) (d : Document),
         res_start_pages res !! i = Some st ->
         docs !! i = Some (p :: d) ->
         0 <= st - 1
         /\ w_pages written !! Z.to_nat (st - 1)
            = Some (stamp_page header_text (res_total_pages res) (st - 1) p).
Proof.
  intros Hlist Hne Hread Hwrite Hok.
  pose proof (merge_success env folder output_path header_text s files docs
                Hlist Hne Hread Hwrite) as Hrun.
  cbv zeta in Hrun.
  set (pcs := (fun d : Document => Z.of_nat (length d)) <$> docs) in *.
  set (n := toc_page_count 45 (placeholder_entries files)) in *.
  set (total := Z.of_nat (length (assembled_pages files docs))) in *.
  assert (Hn : 1 <= n) by apply toc_page_count_pos.
  assert (Hlen : length pcs = length files).
  { subst pcs. rewrite length_fmap. symmetry. by eapply Forall2_length. }
  eexists _, _, _. split; [exact Hrun|].
  cbn [disk res_start_pages res_total_pages].
  split; [by rewrite lookup_insert_eq|]. cbn [w_outline w_pages]. split.
  - rewrite outline_items_spec; [done|done|lia|].
    rewrite length_start_pages. lia.
  - intros i st p d Hst Hd.
    apply start_pages_lookup_inv in Hst as [Hi ->].
    assert (Hsum : sumZ (take i pcs) = Z.of_nat (length (concat (take i docs)))).
    { subst pcs. by rewrite <- fmap_take, length_concat_sumZ. }
    assert (Hnn : 0 <= sumZ (take i pcs)) by lia.
    split; [lia|].
    rewrite stamped_lookup.
    replace (Z.to_nat (n + 1 + sumZ (take i pcs) - 1))
      with (Z.to_nat n + length (concat (take i docs)))%nat by lia.
    unfold assembled_pages. fold pcs. fold n.
    rewrite lookup_app_r by (rewrite length_toc_document; lia).
    rewrite length_toc_document.
    replace (Z.to_nat n + length (concat (take i docs)) - Z.to_nat n)%nat
      with (length (concat (take i docs))) by lia.
    rewrite (concat_lookup_first docs i p d Hd). cbn [fmap option_fmap option_map].
    do 2 f_equal. lia.
Qed.

Lemma bookmarks_point_to_first_pages_witness :
  _list_pdfs_in_folder Examples.env_three "/d" = ["/d/A.PDF"; "/d/b.pdf"; "/d/c.pdf"]
  /\ ["/d/A.PDF"; "/d/b.pdf"; "/d/c.pdf"] <> []
  /\ Forall2 (readable Examples.env_three) ["/d/A.PDF"; "/d/b.pdf"; "/d/c.pdf"]
       Examples.docs_three
  /\ write_error Examples.env_three "/out.pdf" = None
  /\ (forall f : string,
        f ∈ ["/d/A.PDF"; "/d/b.pdf"; "/d/c.pdf"] ->
        outline_raises Examples.env_three (_safe_basename f) = false)
  /\ exists (res : MergeResult) (s' : RunState) (written : PdfWriter),
       merge_pdfs_with_toc Examples.env_three "/d" "/out.pdf" "hdr" (initial_state ∅)
       = (ok res, s')
       /\ disk s' !! "/out.pdf" = Some written
       /\ w_outline written
          = zip_with (fun f st => (_safe_basename f, st - 1))
              ["/d/A.PDF"; "/d/b.pdf"; "/d/c.pdf"] (res_start_pages res).
Proof.
  assert (H1 : _list_pdfs_in_folder Examples.env_three "/d"
               = ["/d/A.PDF"; "/d/b.pdf"; "/d/c.pdf"]) by reflexivity.
  assert (H2 : ["/d/A.PDF"; "/d/b.pdf"; "/d/c.pdf"] <> []) by discriminate.
  assert (H3 : Forall2 (readable Examples.env_three) ["/d/A.PDF"; "/d/b.pdf"; "/d/c.pdf"]
                 Examples.docs_three) by (repeat constructor).
  assert (H4 : write_error Examples.env_three "/out.pdf" = None) by reflexivity.
  assert (H5 : forall f : string,
             f ∈ ["/d/A.PDF"; "/d/b.pdf"; "/d/c.pdf"] ->
             outline_raises Examples.env_three (_safe_basename f) = false)
    by (intros f _; reflexivity).
  split; [exact H1|]. split; [exact H2|]. split; [exact H3|]. split; [exact H4|].
  split; [exact H5|].
  destruct (bookmarks_point_to_first_pages Examples.env_three "/d" "/out.pdf" "hdr"
              (initial_state ∅) _ Examples.docs_three H1 H2 H3 H4 H5)
    as (res & s' & written & Hrun & Hdisk & Houtline & _).
  exists res, s', written. repeat split; assumption.
Defined.

Lemma counting_events_bounds (n_files : Z) (files : list string) :
  forall (i j m : Z) (msg : string),
    Progress j m msg ∈ counting_events n_files i files ->
    m = n_files /\ i <= j < i + Z.of_nat (length files).
Proof.
  induction files as [|f files IH]; intros i j m msg H; cbn in H.
  - by apply not_elem_of_nil in H.
  - apply elem_of_cons in H as [[= -> -> _]|H]; [cbn [length]; lia|].
    apply IH in H. cbn [length]. lia.
Qed.

Lemma merging_events_bounds (n_files : Z) (files : list string) :
  forall (i j m : Z) (msg : string),
    Progress j m msg ∈ merging_events n_files i files ->
    m = n_files /\ i <= j < i + Z.of_nat (length files).
Proof.
  induction files as [|f files IH]; intros i j m msg H; cbn in H.
  - by apply not_elem_of_nil in H.
  - apply elem_of_cons in H as [[= -> -> _]|H]; [cbn [length]; lia|].
    apply IH in H. cbn [length]. lia.
Qed.

(** X10.  In a run that completes, every progress callback is made with
    an index between 1 and its total, so [_progress] sets the bar to
    maximum = total and value = index and the value never exceeds the
    maximum. *)
Theorem progress_index_within_total (env : Env)
    (folder output_path header_text : string) (s : RunState)
    (files : list string) (docs : list Document) :
  _list_pdfs_in_folder env folder = files ->
  files <> [] ->
  Forall2 (readable env) files docs ->
  write_error env output_path = None ->
  exists (res : MergeResult) (s' : RunState) (evs : list Event),
    merge_pdfs_with_toc env folder output_path header_text s = (ok res, s')
    /\ events s' = (events s ++ evs)%list
    /\ forall (i n : Z) (msg : string),
         Progress i n msg ∈ evs ->
         1 <= i <= n /\ _progress_bar i n = (n, i).
Proof.
  intros Hlist Hne Hread Hwrite.
  pose proof (merge_success env folder output_path header_text s files docs
                Hlist Hne Hread Hwrite) as Hrun.
  cbv zeta in Hrun.
  eexists _, _, (run_events files docs). split; [exact Hrun|].
  split; [reflexivity|].
  intros i n msg H.
  assert (Hin : 1 <= i <= n).
  { unfold run_events, toc_log in H. rewrite !elem_of_app, elem_of_cons in H.
    destruct H as [H|[[H|H]|[H|H]]].
    - apply counting_events_bounds in H. lia.
    - discriminate.
    - apply list_elem_of_fmap in H as (e & [=] & _).
    - apply merging_events_bounds in H. lia.
    - apply list_elem_of_singleton in H. injection H as -> -> _. lia. }
  split; [exact Hin|]. unfold _progress_bar. rewrite py_max_spec, py_min_spec.
  f_equal; lia.
Qed.

Lemma progress_index_within_total_witness :
  _list_pdfs_in_folder Examples.env_three "/d" = ["/d/A.PDF"; "/d/b.pdf"; "/d/c.pdf"]
  /\ ["/d/A.PDF"; "/d/b.pdf"; "/d/c.pdf"] <> []
  /\ Forall2 (readable Examples.env_three) ["/d/A.PDF"; "/d/b.pdf"; "/d/c.pdf"]
       Examples.docs_three
  /\ write_error Examples.env_three "/out.pdf" = None
  /\ exists (res : MergeResult) (s' : RunState) (evs : list Event),
       merge_pdfs_with_toc Examples.env_three "/d" "/out.pdf" "hdr" (initial_state ∅)
       = (ok res, s')
       /\ events s' = evs
       /\ forall (i n : Z) (msg : string),
            Progress i n msg ∈ evs -> 1 <= i <= n /\ _progress_bar i n = (n, i).
Proof.
  assert (H1 : _list_pdfs_in_folder Examples.env_three "/d"
               = ["/d/A.PDF"; "/d/b.pdf"; "/d/c.pdf"]) by reflexivity.
  assert (H2 : ["/d/A.PDF"; "/d/b.pdf"; "/d/c.pdf"] <> []) by discriminate.
  assert (H3 : Forall2 (readable Examples.env_three) ["/d/A.PDF"; "/d/b.pdf"; "/d/c.pdf"]
                 Examples.docs_three) by (repeat constructor).
  assert (H4 : write_error Examples.env_three "/out.pdf" = None) by reflexivity.
  split; [exact H1|]. split; [exact H2|]. split; [exact H3|]. split; [exact H4|].
  destruct (progress_index_within_total Examples.env_three "/d" "/out.pdf" "hdr"
              (initial_state ∅) _ Examples.docs_three H1 H2 H3 H4)
    as (res & s' & evs & Hrun & Hevs & Hbounds).
  exists res, s', evs. split; [exact Hrun|]. split; [exact Hevs|]. exact Hbounds.
Defined.

Lemma concat_lookup_offset {A : Type} (docs : list (list A)) :
  forall (i j : nat) (d : list A) (p : A),
    docs !! i = Some d -> d !! j = Some p ->
    concat docs !! (length (concat (take i docs)) + j)%nat = Some p.
Proof.
  induction docs as [|d0 docs IH]; intros i j d p Hd Hp; [done|].
  destruct i as [|i]; cbn in Hd.
  - injection Hd as ->. cbn [take concat length]. rewrite Nat.add_0_l.
    rewrite lookup_app_l; [done|]. by eapply lookup_lt_Some.
  - cbn [take concat]. rewrite length_app, lookup_app_r by lia.
    replace (length d0 + length (concat (take i docs)) + j - length d0)%nat
      with (length (concat (take i docs)) + j)%nat by lia.
    by eapply IH.
Qed.

(** X11.  The page numbers printed in the TOC are the real ones: in a run
    that completes, page j (0-based) of the i-th document is page
    [start_page[i] + j] (1-based) of the written file, and unless
    merging the overlay raised for it, its footer reads
    "Page {start_page[i] + j} of {total}". *)
Theorem start_pages_locate_documents (env : Env)
    (folder output_path header_text : string) (s : RunState)
    (files : list string) (docs : list Document) :
  _list_pdfs_in_folder env folder = files ->
  files <> [] ->
  Forall2 (readable env) files docs ->
  write_error env output_path = None ->
  exists (res : MergeResult) (s' : RunState) (written : PdfWriter),
    merge_pdfs_with_toc env folder output_path header_text s = (ok res, s')
    /\ disk s' !! output_path = Some written
    /\ forall (i j : nat) (st : Z) (d : Document) (p : Page),
         res_start_pages res !! i = Some st ->
         docs !! i = Some d -> d !! j = Some p ->
         1 <= st + Z.of_nat j <= res_total_pages res
         /\ exists p' : Page,
              w_pages written !! Z.to_nat (st + Z.of_nat j - 1) = Some p'
              /\ mediabox_width p' = mediabox_width p
              /\ mediabox_height p' = mediabox_height p
              /\ (merge_raises p = true -> p' = p)
              /\ (merge_raises p = false ->
                  last (content p')
                  = Some (DrawRightString "Helvetica" 9 (mediabox_width p - 36) 24
                            ("Page " +:+ Py.str (st + Z.of_nat j) +:+ " of "
                             +:+ Py.str (res_total_pages res)))).
Proof.
  intros Hlist Hne Hread Hwrite.
  pose proof (merge_success env folder output_path header_text s files docs
                Hlist Hne Hread Hwrite) as Hrun.
  cbv zeta in Hrun.
  set (pcs := (fun d : Document => Z.of_nat (length d)) <$> docs) in *.
  set (n := toc_page_count 45 (placeholder_entries files)) in *.
  set (total := Z.of_nat (length (assembled_pages files docs))) in *.
  assert (Hn : 1 <= n) by apply toc_page_count_pos.
  eexists _, _, _. split; [exact Hrun|].
  cbn [disk res_start_pages res_total_pages].
  split; [by rewrite lookup_insert_eq|]. cbn [w_pages].
  intros i j st d p Hst Hd Hp.
  apply start_pages_lookup_inv in Hst as [Hi ->].
  assert (Hsum : sumZ (take i pcs) = Z.of_nat (length (concat (take i docs)))).
  { subst pcs. by rewrite <- fmap_take, length_concat_sumZ. }
  pose proof (concat_lookup_offset docs i j d p Hd Hp) as Hcat.
  assert (Hasm : assembled_pages files docs
                   !! (Z.to_nat n + (length (concat (take i docs)) + j))%nat = Some p).
  { unfold assembled_pages. fold pcs. fold n.
    rewrite lookup_app_r by (rewrite length_toc_document; lia).
    rewrite length_toc_document.
    by replace (Z.to_nat n + (length (concat (take i docs)) + j) - Z.to_nat n)%nat
      with (length (concat (take i docs)) + j)%nat by lia. }
  split.
  { apply lookup_lt_Some in Hasm. subst total. lia. }
  exists (stamp_page header_text total (n + 1 + sumZ (take i pcs) + Z.of_nat j - 1) p).
  split.
  { rewrite stamped_lookup.
    replace (Z.to_nat (n + 1 + sumZ (take i pcs) + Z.of_nat j - 1))
      with (Z.to_nat n + (length (concat (take i docs)) + j))%nat by lia.
    rewrite Hasm. cbn [fmap option_fmap option_map]. do 2 f_equal. lia. }
  unfold stamp_page.
  destruct (merge_raises p) eqn:E; cbn [mediabox_width mediabox_height content];
    repeat split; try done.
  intros _. unfold overlay_ops, footer_text.
  rewrite app_assoc, last_snoc.
  by replace (n + 1 + sumZ (take i pcs) + Z.of_nat j - 1 + 1)
       with (n + 1 + sumZ (take i pcs) + Z.of_nat j) by lia.
Qed.

Lemma start_pages_locate_documents_witness :
  _list_pdfs_in_folder Examples.env_three "/d" = ["/d/A.PDF"; "/d/b.pdf"; "/d/c.pdf"]
  /\ ["/d/A.PDF"; "/d/b.pdf"; "/d/c.pdf"] <> []
  /\ Forall2 (readable Examples.env_three) ["/d/A.PDF"; "/d/b.pdf"; "/d/c.pdf"]
       Examples.docs_three
  /\ write_error Examples.env_three "/out.pdf" = None
  /\ exists (res : MergeResult) (s' : RunState) (written : PdfWriter),
       merge_pdfs_with_toc Examples.env_three "/d" "/out.pdf" "hdr" (initial_state ∅)
       = (ok res, s')
       /\ disk s' !! "/out.pdf" = Some written
       /\ forall (i j : nat) (st : Z) (d : Document) (p : Page),
            res_start_pages res !! i = Some st ->
            Examples.docs_three !! i = Some d -> d !! j = Some p ->
            1 <= st + Z.of_nat j <= res_total_pages res.
Proof.
  assert (H1 : _list_pdfs_in_folder Examples.env_three "/d"
               = ["/d/A.PDF"; "/d/b.pdf"; "/d/c.pdf"]) by reflexivity.
  assert (H2 : ["/d/A.PDF"; "/d/b.pdf"; "/d/c.pdf"] <> []) by discriminate.
  assert (H3 : Forall2 (readable Examples.env_three) ["/d/A.PDF"; "/d/b.pdf"; "/d/c.pdf"]
                 Examples.docs_three) by (repeat constructor).
  assert (H4 : write_error Examples.env_three "/out.pdf" = None) by reflexivity.
  split; [exact H1|]. split; [exact H2|]. split; [exact H3|]. split; [exact H4|].
  destruct (start_pages_locate_documents Examples.env_three "/d" "/out.pdf" "hdr"
              (initial_state ∅) _ Examples.docs_three H1 H2 H3 H4)
    as (res & s' & written & Hrun & Hdisk & Hpages).
  exists res, s', written. split; [exact Hrun|]. split; [exact Hdisk|].
  intros i j st d p Hst Hd Hp. exact (proj1 (Hpages i j st d p Hst Hd Hp)).
Defined.
